(** * The sensors poll context of the STML0XX_MAG sensor HAL

    A shallow embedding of [sensors/STML0XX_MAG/sensors_p_c.cpp]: the
    dispatch table [handleToDriver], the control operations [activate],
    [setDelay], [batch] and [flush], and the wait-and-drain operation
    [pollEvents] of [sensors_poll_context_t].

    C++ [int] and [int64_t] values are integers of [Z]; the code is modelled
    where its arithmetic is defined (signed overflow is undefined in C++).
    The drivers behind [SensorBase*] and the kernel calls ([poll], [read],
    [write]) are outside the file: drivers are objects with a table of
    methods, the kernel is a small state that the calls consult.  Every
    call that leaves the file is recorded as an [action]. *)

From Stdlib Require Import String ZArith List Bool Lia Sorted.
Import ListNotations.
Open Scope Z_scope.

(** ** Constants of the system headers *)

(** [errno.h] and [poll.h] of Linux. *)
Definition EINTR : Z := 4.
Definition EINVAL : Z := 22.
Definition POLLIN : Z := 1.

(** The logical sensor ids are macros of [sensors.h], which is not part of
    the file: they are parameters of the development. *)
Class sensors_h : Type := {
  ID_A : Z; ID_L : Z; ID_DR : Z; ID_P : Z; ID_FU : Z;
  ID_FD : Z; ID_S : Z; ID_CA : Z; ID_A2 : Z; ID_M : Z
}.

(** ** The private enum and constants of [sensors_poll_context_t] *)

Definition accelgyromag : Z := 0.
Definition akm : Z := 1.
Definition numSensorDrivers : Z := 2.
Definition numFds : Z := 3.
Definition wake : Z := numFds - 1.
(** ['W'] *)
Definition WAKE_MESSAGE : Z := 87.

(** ** Drivers *)

Module SensorBase.
(** The virtual methods of [SensorBase] that the poll context calls, over
    a driver state [D] and event records [E].  A method takes the state of
    the object and gives its result with the new state.  [readEvents]
    gives the [int] it returns and the records it stored at [data[0]],
    [data[1]], ... *)
Record vtable (D E : Type) : Type := {
  getFd : D -> Z;
  setEnable : D -> Z -> Z -> Z * D;
  setDelay : D -> Z -> Z -> Z * D;
  hasPendingEvents : D -> bool;
  readEvents : D -> Z -> (Z * list E) * D;
  flush : D -> Z -> Z * D
}.
Arguments getFd {D E} _ _.
Arguments setEnable {D E} _ _ _ _.
Arguments setDelay {D E} _ _ _ _.
Arguments hasPendingEvents {D E} _ _.
Arguments readEvents {D E} _ _ _.
Arguments flush {D E} _ _ _.
End SensorBase.

(** A live driver object: its method table and its state. *)
Record sensor (D E : Type) : Type := {
  vptr : SensorBase.vtable D E;
  self : D
}.
Arguments vptr {D E} _.
Arguments self {D E} _.

(** ** The poll context *)

Record pollfd : Type := {
  fd : Z;
  events : Z;
  revents : Z
}.

(** The arrays [mPollFds] and [mSensors] are read by index; a slot of
    [mSensors] holding [None] is the null pointer. *)
Record sensors_poll_context_t (D E : Type) : Type := {
  mPollFds : nat -> pollfd;
  mWritePipeFd : Z;
  mSensors : nat -> option (sensor D E)
}.
Arguments mPollFds {D E} _ _.
Arguments mWritePipeFd {D E} _.
Arguments mSensors {D E} _ _.

(** ** The kernel, as far as the poll context sees it *)

(** What one call of [poll] answers: the [revents] it stored in the entries
    of [mPollFds] (a result [>= 0]), or [-1] with [errno]. *)
Inductive poll_answer : Type :=
| PollReady (revs : list Z)
| PollFail (errno : Z).

Record kernel : Type := {
  poll_answers : list poll_answer;   (* the answers of the calls of poll to come *)
  pipe_rd : Z;                       (* the read end of the wake pipe *)
  pipe_wr : Z;                       (* its write end *)
  pipe_bytes : list Z;               (* the bytes queued in it *)
  pipe_capacity : nat;               (* how many it holds *)
  uninit_msg : Z                     (* what an unset local [char] holds *)
}.

Definition set_poll_answers (l : list poll_answer) (k : kernel) : kernel :=
  {| poll_answers := l; pipe_rd := pipe_rd k; pipe_wr := pipe_wr k;
     pipe_bytes := pipe_bytes k; pipe_capacity := pipe_capacity k;
     uninit_msg := uninit_msg k |}.

Definition set_pipe_bytes (l : list Z) (k : kernel) : kernel :=
  {| poll_answers := poll_answers k; pipe_rd := pipe_rd k; pipe_wr := pipe_wr k;
     pipe_bytes := l; pipe_capacity := pipe_capacity k;
     uninit_msg := uninit_msg k |}.

(** ** Calls that leave the file *)

Inductive action : Type :=
| SysPoll (nfds timeout : Z) (ret : option Z)   (* [None]: the call has not returned *)
| SysWrite (fd : Z) (byte : Z) (ret : Z)
| SysRead (fd : Z) (ret : Z)
| SysPipe (ret : Z)
| SysFcntl (fd : Z)
| CallSetEnable (drv : nat) (handle enabled : Z)
| CallSetDelay (drv : nat) (handle ns : Z)
| CallHasPendingEvents (drv : nat)
| CallReadEvents (drv : nat) (data count nb : Z)
| CallFlush (drv : nat) (handle : Z)
| ALOGE (msg : string).

(** ** States and outcomes of a call *)

(** The state a member function runs in: the context, the caller's array of
    event records (index [0] is where [data] points when [pollEvents] is
    entered) and the kernel. *)
Record world (D E : Type) : Type := {
  ctx : sensors_poll_context_t D E;
  events_buf : Z -> option E;
  kern : kernel
}.
Arguments ctx {D E} _.
Arguments events_buf {D E} _ _.
Arguments kern {D E} _.

(** How a call ends: it returns, it calls a method through a null
    [SensorBase*] (undefined behaviour), or it stays in [poll]. *)
Inductive outcome (D E A : Type) : Type :=
| Returns (a : A) (w : world D E)
| NullDeref
| Blocked.
Arguments Returns {D E A} _ _.
Arguments NullDeref {D E A}.
Arguments Blocked {D E A}.

Section PollContext.

Context {ids : sensors_h} {D E : Type}.

Local Abbreviation world := (world D E).
Local Abbreviation outcome := (outcome D E).

(** A member function: from a state to the actions it performed and its
    outcome. *)
Definition M (A : Type) : Type := world -> list action * outcome A.

Definition ret {A} (a : A) : M A := fun w => ([], Returns a w).

Definition bind {A B} (m : M A) (f : A -> M B) : M B :=
  fun w =>
    match m w with
    | (t1, Returns a w1) => let (t2, o) := f a w1 in (t1 ++ t2, o)
    | (t1, NullDeref) => (t1, NullDeref)
    | (t1, Blocked) => (t1, Blocked)
    end.

Notation "x <- m ;; k" := (bind m (fun x => k))
  (at level 61, m at next level, right associativity).
Notation "m ;;; k" := (bind m (fun _ => k))
  (at level 61, right associativity).

Definition with_ctx (c : sensors_poll_context_t D E) (w : world) : world :=
  {| ctx := c; events_buf := events_buf w; kern := kern w |}.
Definition with_kern (k : kernel) (w : world) : world :=
  {| ctx := ctx w; events_buf := events_buf w; kern := k |}.
Definition with_buf (b : Z -> option E) (w : world) : world :=
  {| ctx := ctx w; events_buf := b; kern := kern w |}.

Definition emit (a : action) : M unit := fun w => ([a], Returns tt w).
Definition get_ctx : M (sensors_poll_context_t D E) := fun w => ([], Returns (ctx w) w).
Definition get_kern : M kernel := fun w => ([], Returns (kern w) w).
Definition get_buf : M (Z -> option E) := fun w => ([], Returns (events_buf w) w).
Definition put_ctx (c : sensors_poll_context_t D E) : M unit :=
  fun w => ([], Returns tt (with_ctx c w)).
Definition put_kern (k : kernel) : M unit :=
  fun w => ([], Returns tt (with_kern k w)).
Definition put_buf (b : Z -> option E) : M unit :=
  fun w => ([], Returns tt (with_buf b w)).

Definition ALOGE_IF (c : bool) (msg : string) : M unit :=
  if c then emit (ALOGE msg) else ret tt.

(** *** Stores into the arrays *)

Definition set_revents (i : nat) (v : Z) (c : sensors_poll_context_t D E)
  : sensors_poll_context_t D E :=
  {| mPollFds := fun j =>
       if Nat.eqb j i
       then {| fd := fd (mPollFds c j); events := events (mPollFds c j); revents := v |}
       else mPollFds c j;
     mWritePipeFd := mWritePipeFd c;
     mSensors := mSensors c |}.

Definition set_sensor (i : nat) (s : option (sensor D E)) (c : sensors_poll_context_t D E)
  : sensors_poll_context_t D E :=
  {| mPollFds := mPollFds c;
     mWritePipeFd := mWritePipeFd c;
     mSensors := fun j => if Nat.eqb j i then s else mSensors c j |}.

Definition set_pollfd (i : nat) (p : pollfd) (c : sensors_poll_context_t D E)
  : sensors_poll_context_t D E :=
  {| mPollFds := fun j => if Nat.eqb j i then p else mPollFds c j;
     mWritePipeFd := mWritePipeFd c;
     mSensors := mSensors c |}.

Definition set_mWritePipeFd (v : Z) (c : sensors_poll_context_t D E)
  : sensors_poll_context_t D E :=
  {| mPollFds := mPollFds c; mWritePipeFd := v; mSensors := mSensors c |}.

(** [data[off] = r0; data[off+1] = r1; ...] *)
Fixpoint store_records (b : Z -> option E) (off : Z) (recs : list E) : Z -> option E :=
  match recs with
  | [] => b
  | r :: recs' =>
      store_records (fun j => if j =? off then Some r else b j) (off + 1) recs'
  end.

(** *** Method calls through [mSensors[i]] *)

Definition deref (i : nat) : M (sensor D E) :=
  fun w =>
    match mSensors (ctx w) i with
    | Some s => ([], Returns s w)
    | None => ([], NullDeref)
    end.

Definition update_self (i : nat) (s : sensor D E) (d : D) : M unit :=
  c <- get_ctx ;;
  put_ctx (set_sensor i (Some {| vptr := vptr s; self := d |}) c).

Definition call_setEnable (i : nat) (handle enabled : Z) : M Z :=
  s <- deref i ;;
  emit (CallSetEnable i handle enabled) ;;;
  let (err, d) := SensorBase.setEnable (vptr s) (self s) handle enabled in
  update_self i s d ;;;
  ret err.

Definition call_setDelay (i : nat) (handle ns : Z) : M Z :=
  s <- deref i ;;
  emit (CallSetDelay i handle ns) ;;;
  let (err, d) := SensorBase.setDelay (vptr s) (self s) handle ns in
  update_self i s d ;;;
  ret err.

Definition call_flush (i : nat) (handle : Z) : M Z :=
  s <- deref i ;;
  emit (CallFlush i handle) ;;;
  let (err, d) := SensorBase.flush (vptr s) (self s) handle in
  update_self i s d ;;;
  ret err.

Definition call_hasPendingEvents (i : nat) : M bool :=
  s <- deref i ;;
  emit (CallHasPendingEvents i) ;;;
  ret (SensorBase.hasPendingEvents (vptr s) (self s)).

Definition call_readEvents (i : nat) (data count : Z) : M Z :=
  s <- deref i ;;
  let '((nb, recs), d) := SensorBase.readEvents (vptr s) (self s) count in
  emit (CallReadEvents i data count nb) ;;;
  b <- get_buf ;;
  put_buf (store_records b data recs) ;;;
  update_self i s d ;;;
  ret nb.

(** *** Kernel calls *)

(** [write(fd, &byte, 1)] on the non-blocking wake pipe: the byte is queued
    when [fd] is the write end and there is room, otherwise the call
    fails. *)
Definition sys_write (fd byte : Z) : M Z :=
  k <- get_kern ;;
  if (fd =? pipe_wr k) && (Nat.ltb (length (pipe_bytes k)) (pipe_capacity k))
  then
    put_kern (set_pipe_bytes (pipe_bytes k ++ [byte]) k) ;;;
    emit (SysWrite fd byte 1) ;;;
    ret 1
  else
    emit (SysWrite fd byte (-1)) ;;;
    ret (-1).

(** [read(fd, &msg, 1)] on the non-blocking wake pipe: the result and what
    [msg] holds afterwards. *)
Definition sys_read (fd : Z) : M (Z * Z) :=
  k <- get_kern ;;
  match pipe_bytes k with
  | b :: rest =>
      if fd =? pipe_rd k
      then
        put_kern (set_pipe_bytes rest k) ;;;
        emit (SysRead fd 1) ;;;
        ret (1, b)
      else
        emit (SysRead fd (-1)) ;;;
        ret (-1, uninit_msg k)
  | [] =>
      emit (SysRead fd (-1)) ;;;
      ret (-1, uninit_msg k)
  end.

(** ** The member functions *)

(** One driver slot of the constructor: [p] is what [new(std::nothrow)]
    gave. *)
Definition construct_slot (i : Z) (p : option (sensor D E)) (oom : string)
    (c : sensors_poll_context_t D E) : list action * sensors_poll_context_t D E :=
  let c1 := set_sensor (Z.to_nat i) p c in
  match p with
  | Some s =>
      ([], set_pollfd (Z.to_nat i)
             {| fd := SensorBase.getFd (vptr s) (self s); events := POLLIN; revents := 0 |} c1)
  | None => ([ALOGE oom], c1)
  end.

(** The constructor, on the memory [raw] it is run in.  [hub] and [fusion]
    are what the two [new(std::nothrow)] gave, [result] is what [pipe]
    returned and [wakeFds] what the array holds after it. *)
Definition new_sensors_poll_context_t (raw : sensors_poll_context_t D E)
    (hub fusion : option (sensor D E)) (result : Z) (wakeFds : Z * Z)
  : list action * sensors_poll_context_t D E :=
  let (t0, c0) := construct_slot accelgyromag hub "out of memory: new failed for HubSensor" raw in
  let (t1, c1) := construct_slot akm fusion "out of memory: new failed for AkmSensor" c0 in
  let t2 := SysPipe result
            :: (if result <? 0 then [ALOGE "error creating wake pipe (%s)"] else [])
            ++ [SysFcntl (fst wakeFds); SysFcntl (snd wakeFds)] in
  let c2 := set_mWritePipeFd (snd wakeFds) c1 in
  (t0 ++ t1 ++ t2,
   set_pollfd (Z.to_nat wake) {| fd := fst wakeFds; events := POLLIN; revents := 0 |} c2).

Definition hub_handles : list Z :=
  [ID_A; ID_L; ID_DR; ID_P; ID_FU; ID_FD; ID_S; ID_CA; ID_A2].

Definition recognized_handles : list Z := hub_handles ++ [ID_M].

(** The [switch] of [handleToDriver]: the first matching label decides. *)
Definition handleToDriver (handle : Z) : Z :=
  if handle =? ID_A then accelgyromag
  else if handle =? ID_L then accelgyromag
  else if handle =? ID_DR then accelgyromag
  else if handle =? ID_P then accelgyromag
  else if handle =? ID_FU then accelgyromag
  else if handle =? ID_FD then accelgyromag
  else if handle =? ID_S then accelgyromag
  else if handle =? ID_CA then accelgyromag
  else if handle =? ID_A2 then accelgyromag
  else if handle =? ID_M then akm
  else - EINVAL.

Definition activate (handle enabled : Z) : M Z :=
  let drv := handleToDriver handle in
  if drv <? 0 then ret (- EINVAL)
  else
    err <- call_setEnable (Z.to_nat drv) handle enabled ;;
    (if (handle =? ID_M) && negb (enabled =? 0) && (err =? 0)
     then
       c <- get_ctx ;;
       result <- sys_write (mWritePipeFd c) WAKE_MESSAGE ;;
       ALOGE_IF (result <? 0) "error sending wake message (%s)"
     else ret tt) ;;;
    ret err.

Definition setDelay (handle ns : Z) : M Z :=
  let drv := handleToDriver handle in
  if drv <? 0 then ret (- EINVAL)
  else
    err <- call_setDelay (Z.to_nat drv) handle ns ;;
    ret err.

(** The number of entries of [mPollFds] that [poll] reports ready. *)
Definition poll_ret (revs : list Z) : Z :=
  Z.of_nat (length (filter (fun i => negb (nth i revs 0 =? 0)) (seq 0 (Z.to_nat numFds)))).

Definition store_revents (revs : list Z) (c : sensors_poll_context_t D E)
  : sensors_poll_context_t D E :=
  fold_left (fun c' i => set_revents i (nth i revs 0) c') (seq 0 (Z.to_nat numFds)) c.

Definition pop_answer (rest : list poll_answer) : M unit :=
  k <- get_kern ;;
  put_kern (set_poll_answers rest k).

(** The [while (true)] loop around [poll], one round for each answer of the
    kernel.  [inl r] is [return r], [inr tt] is [break].  With no answer
    left, the call stays in [poll]. *)
Fixpoint wait_loop (answers : list poll_answer) (nbEvents : Z) : M (Z + unit) :=
  let timeout := if nbEvents =? 0 then -1 else 0 in
  match answers with
  | [] => fun _ => ([SysPoll numFds timeout None], Blocked)
  | PollReady revs :: rest =>
      pop_answer rest ;;;
      emit (SysPoll numFds timeout (Some (poll_ret revs))) ;;;
      c <- get_ctx ;;
      put_ctx (store_revents revs c) ;;;
      ret (inr tt)
  | PollFail err :: rest =>
      pop_answer rest ;;;
      emit (SysPoll numFds timeout (Some (-1))) ;;;
      emit (ALOGE "poll() failed (%s)") ;;;
      if err =? EINTR then wait_loop rest nbEvents
      else ret (inl (- err))
  end.

(** The body of the [for] loop over the drivers at index [i], with the
    locals [count], [nbEvents] and [data] (an offset into the caller's
    array). *)
Definition drain_round (i : nat) (count nbEvents data : Z) : M (Z * Z * Z) :=
  c <- get_ctx ;;
  ready <- (if negb (Z.land (revents (mPollFds c i)) POLLIN =? 0)
            then ret true
            else call_hasPendingEvents i) ;;
  if ready : bool
  then
    nb <- call_readEvents i data count ;;
    c' <- get_ctx ;;
    put_ctx (set_revents i 0 c') ;;;
    ret (count - nb, nbEvents + nb, data + nb)
  else ret (count, nbEvents, data).

(** The [for] loop, [n] rounds from index [i] on: it goes on while [count]
    is not zero and [i < numSensorDrivers]. *)
Fixpoint drain_loop (n i : nat) (count nbEvents data : Z) : M (Z * Z * Z) :=
  match n with
  | O => ret (count, nbEvents, data)
  | S n' =>
      if count =? 0 then ret (count, nbEvents, data)
      else
        st <- drain_round i count nbEvents data ;;
        let '(count', nbEvents', data') := st in
        drain_loop n' (S i) count' nbEvents' data'
  end.

Definition drain_wake : M unit :=
  c <- get_ctx ;;
  if negb (Z.land (revents (mPollFds c (Z.to_nat wake))) POLLIN =? 0)
  then
    r <- sys_read (fd (mPollFds c (Z.to_nat wake))) ;;
    let (result, msg) := r : Z * Z in
    ALOGE_IF (result <? 0) "error reading from wake pipe (%s)" ;;;
    ALOGE_IF (negb (msg =? WAKE_MESSAGE)) "unknown message on wake queue (0x%02x)" ;;;
    c' <- get_ctx ;;
    put_ctx (set_revents (Z.to_nat wake) 0 c')
  else ret tt.

Definition pollEvents (count : Z) : M Z :=
  let nbEvents := 0 in
  k <- get_kern ;;
  r <- wait_loop (poll_answers k) nbEvents ;;
  match r with
  | inl e => ret e
  | inr _ =>
      st <- drain_loop (Z.to_nat numSensorDrivers) 0 count nbEvents 0 ;;
      let '(_, nbEvents', _) := st in
      drain_wake ;;;
      ret nbEvents'
  end.

Definition batch (handle flags ns timeout : Z) : M Z :=
  setDelay handle ns.

Definition flush (handle : Z) : M Z :=
  call_flush (Z.to_nat accelgyromag) handle.

End PollContext.

(** ** Reading a list of actions *)

(** A call of a driver's [hasPendingEvents] or [readEvents]: the source is
    consulted or drained. *)
Definition is_source_call (a : action) : bool :=
  match a with
  | CallHasPendingEvents _ | CallReadEvents _ _ _ _ => true
  | _ => false
  end.

(** A call of any method of a driver. *)
Definition is_delegate_call (a : action) : bool :=
  match a with
  | CallSetEnable _ _ _ | CallSetDelay _ _ _ | CallHasPendingEvents _
  | CallReadEvents _ _ _ _ | CallFlush _ _ => true
  | _ => false
  end.

(** A call of [poll]. *)
Definition is_wait (a : action) : bool :=
  match a with
  | SysPoll _ _ _ => true
  | _ => false
  end.

(** The number of records collected: the sum of what the calls of
    [readEvents] returned. *)
Fixpoint collected (acts : list action) : Z :=
  match acts with
  | [] => 0
  | CallReadEvents _ _ _ nb :: rest => nb + collected rest
  | _ :: rest => collected rest
  end.

(** The bytes handed to [write], with the descriptor they went to. *)
Fixpoint wake_writes (acts : list action) : list (Z * Z) :=
  match acts with
  | [] => []
  | SysWrite f b _ :: rest => (f, b) :: wake_writes rest
  | _ :: rest => wake_writes rest
  end.

(** The calls of [poll] that returned [>= 0]. *)
Fixpoint successful_waits (acts : list action) : nat :=
  match acts with
  | [] => O
  | SysPoll _ _ (Some r) :: rest =>
      if 0 <=? r then S (successful_waits rest) else successful_waits rest
  | _ :: rest => successful_waits rest
  end.

(** The state a call returned in, if it did. *)
Definition final {D E A : Type} (r : list action * outcome D E A) : option (world D E) :=
  match snd r with
  | Returns _ w => Some w
  | _ => None
  end.

(** The state a call returned in, or [w] if it did not return. *)
Definition state_after {D E A : Type} (r : list action * outcome D E A) (w : world D E)
  : world D E :=
  match snd r with
  | Returns _ w' => w'
  | _ => w
  end.

(** What a call returned, if it did. *)
Definition returned {D E A : Type} (r : list action * outcome D E A) : option A :=
  match snd r with
  | Returns a _ => Some a
  | _ => None
  end.

(** A source is drained in [pollEvents] when [poll] marked its entry
    readable or it has buffered events. *)
Definition source_ready {D E : Type} (revs : list Z) (i : nat) (s : sensor D E) : bool :=
  negb (Z.land (nth i revs 0) POLLIN =? 0)
  || SensorBase.hasPendingEvents (vptr s) (self s).

(** Given the capacity [c], the driver returns a count between [0] and [c]
    and has stored that many records. *)
Definition stores_what_it_returns {D E : Type} (s : sensor D E) (c : Z) : Prop :=
  let r := SensorBase.readEvents (vptr s) (self s) c in
  0 <= fst (fst r) <= c /\ Z.of_nat (length (snd (fst r))) = fst (fst r).

(** [poll] is interrupted [k] times and then succeeds with [revs]. *)
Definition interrupted_then_ready (k : nat) (revs : list Z) (rest : list poll_answer)
  : list poll_answer :=
  repeat (PollFail EINTR) k ++ PollReady revs :: rest.

(** What [activate] hands to [write] reaches the pipe when the descriptor is
    its write end and it has room. *)
Definition write_lands {D E : Type} (w : world D E) : bool :=
  (mWritePipeFd (ctx w) =? pipe_wr (kern w))
  && Nat.ltb (length (pipe_bytes (kern w))) (pipe_capacity (kern w)).

(** What a call of [pollEvents] with capacity [count] may do after it has
    collected [nbEvents] records: a wait has the timeout that [nbEvents]
    selects, a driver is consulted or drained only with capacity left, and
    a drain is given the capacity that is left. *)
Fixpoint poll_protocol (count nbEvents : Z) (acts : list action) : Prop :=
  match acts with
  | [] => True
  | SysPoll _ timeout _ :: rest =>
      timeout = (if nbEvents =? 0 then -1 else 0) /\ poll_protocol count nbEvents rest
  | CallHasPendingEvents _ :: rest =>
      count <> 0 /\ poll_protocol count nbEvents rest
  | CallReadEvents _ _ c nb :: rest =>
      count <> 0 /\ c = count /\ poll_protocol (count - nb) (nbEvents + nb) rest
  | _ :: rest => poll_protocol count nbEvents rest
  end.

(** The actions of a wait that is interrupted [k] times and then succeeds. *)
Definition wait_actions (k : nat) (timeout : Z) (revs : list Z) : list action :=
  concat (repeat [SysPoll numFds timeout (Some (-1)); ALOGE "poll() failed (%s)"] k)
  ++ [SysPoll numFds timeout (Some (poll_ret revs))].

(** ** Teardown *)

(** What the destructor does to what the context owns. *)
Inductive teardown : Type :=
| DeleteSensor (drv : nat)     (* [delete mSensors[drv]] on a constructed driver *)
| SysClose (fd : Z).

(** The destructor: [delete] on every slot of [mSensors] (on the null
    pointer it does nothing), then [close] on the read end registered in
    [mPollFds[wake]] and on [mWritePipeFd]. *)
Definition delete_sensors_poll_context_t {D E : Type} (c : sensors_poll_context_t D E)
  : list teardown :=
  flat_map (fun i => match mSensors c i with
                     | Some _ => [DeleteSensor i]
                     | None => []
                     end)
           (seq 0 (Z.to_nat numSensorDrivers))
  ++ [SysClose (fd (mPollFds c (Z.to_nat wake))); SysClose (mWritePipeFd c)].

(** [poll__close]: [dev] is the context or the null pointer. *)
Definition poll__close {D E : Type} (dev : option (sensors_poll_context_t D E))
  : list teardown * Z :=
  (match dev with
   | Some c => delete_sensors_poll_context_t c
   | None => []
   end, 0).

(** ** What the calls leave in place *)

(** Two contexts with the same registration: the same write end, the same
    descriptor and interest in every entry of [mPollFds], and in every slot
    of [mSensors] the null pointer or an object of the same class. *)
Definition same_registration {D E : Type} (c c' : sensors_poll_context_t D E) : Prop :=
  mWritePipeFd c' = mWritePipeFd c /\
  (forall i, fd (mPollFds c' i) = fd (mPollFds c i) /\
             events (mPollFds c' i) = events (mPollFds c i)) /\
  (forall i, match mSensors c i, mSensors c' i with
             | Some s, Some s' => vptr s' = vptr s
             | None, None => True
             | _, _ => False
             end).

(** The entry [i] of [mPollFds] is marked readable. *)
Definition marked {D E : Type} (c : sensors_poll_context_t D E) (i : nat) : bool :=
  negb (Z.land (revents (mPollFds c i)) POLLIN =? 0).

(** The state after the driver [s] in slot [i] was drained at [data] with
    capacity [count]. *)
Definition drained {D E : Type} (i : nat) (s : sensor D E) (data count : Z) (w : world D E)
  : world D E :=
  let R := SensorBase.readEvents (vptr s) (self s) count in
  with_ctx
    (set_revents i 0 (set_sensor i (Some {| vptr := vptr s; self := snd R |}) (ctx w)))
    (with_buf (store_records (events_buf w) data (snd (fst R))) w).

(** What the rounds [lo], ..., [hi - 1] of the drain loop leave as it was:
    the kernel, the registration, and the entries and slots of the other
    indices. *)
Definition drain_frame {D E : Type} (lo hi : nat) (w w' : world D E) : Prop :=
  kern w' = kern w /\
  same_registration (ctx w) (ctx w') /\
  (forall j, (j < lo)%nat \/ (hi <= j)%nat ->
     mPollFds (ctx w') j = mPollFds (ctx w) j /\ mSensors (ctx w') j = mSensors (ctx w) j).

(** The calls of [read]. *)
Fixpoint reads (acts : list action) : nat :=
  match acts with
  | [] => O
  | SysRead _ _ :: rest => S (reads rest)
  | _ :: rest => reads rest
  end.

(** The slots that were drained, in the order of the calls of
    [readEvents]. *)
Fixpoint read_indices (acts : list action) : list nat :=
  match acts with
  | [] => []
  | CallReadEvents j _ _ _ :: rest => j :: read_indices rest
  | _ :: rest => read_indices rest
  end.

(** The calls of methods of drivers. *)
Definition delegate_calls (acts : list action) : list action :=
  filter is_delegate_call acts.

(** [poll] is interrupted [k] times and then fails with [err]. *)
Definition interrupted_then_failed (k : nat) (err : Z) (rest : list poll_answer)
  : list poll_answer :=
  repeat (PollFail EINTR) k ++ PollFail err :: rest.

(** The actions of a wait that is interrupted [k] times and then fails. *)
Definition failed_wait_actions (k : nat) (timeout : Z) : list action :=
  concat (repeat [SysPoll numFds timeout (Some (-1)); ALOGE "poll() failed (%s)"] (S k)).


(** ** A sample configuration *)

Module Sample.

(** A numbering of the logical sensors, with pairwise distinct ids as the
    labels of a [switch] have to be. *)
Definition ids : sensors_h :=
  {| ID_A := 0; ID_L := 1; ID_DR := 2; ID_P := 3; ID_FU := 4;
     ID_FD := 5; ID_S := 6; ID_CA := 7; ID_A2 := 8; ID_M := 9 |}.

(** A driver that holds a queue of records.  [readEvents] refuses a count
    below one, as the drivers of this HAL do, and otherwise hands out the
    head of the queue. *)
Definition queue_driver (fdnum enable_result : Z) : SensorBase.vtable (list Z) Z :=
  {| SensorBase.getFd := fun _ => fdnum;
     SensorBase.setEnable := fun d _ _ => (enable_result, d);
     SensorBase.setDelay := fun d _ _ => (0, d);
     SensorBase.hasPendingEvents := fun d => match d with [] => false | _ => true end;
     SensorBase.readEvents := fun d count =>
       if count <? 1 then ((- EINVAL, []), d)
       else
         let n := Nat.min (Z.to_nat count) (length d) in
         ((Z.of_nat n, firstn n d), skipn n d);
     SensorBase.flush := fun d handle => (handle + 100, d) |}.

Definition hub (queue : list Z) : sensor (list Z) Z :=
  {| vptr := queue_driver 3 0; self := queue |}.
Definition fusion (queue : list Z) : sensor (list Z) Z :=
  {| vptr := queue_driver 4 0; self := queue |}.
Definition failing_fusion : sensor (list Z) Z :=
  {| vptr := queue_driver 4 (-5); self := [] |}.

(** The memory a context is built in. *)
Definition raw : sensors_poll_context_t (list Z) Z :=
  {| mPollFds := fun _ => {| fd := 1234; events := 77; revents := 1 |};
     mWritePipeFd := 4321;
     mSensors := fun _ => None |}.

Definition kernel_of (answers : list poll_answer) : kernel :=
  {| poll_answers := answers; pipe_rd := 5; pipe_wr := 6; pipe_bytes := [];
     pipe_capacity := 16; uninit_msg := 0 |}.

Definition world_of (p0 p1 : option (sensor (list Z) Z)) (answers : list poll_answer)
  : world (list Z) Z :=
  {| ctx := snd (new_sensors_poll_context_t raw p0 p1 0 (5, 6));
     events_buf := fun _ => None;
     kern := kernel_of answers |}.

(** Both drivers constructed, with the records they hold. *)
Definition both (hub_queue fusion_queue : list Z) (answers : list poll_answer)
  : world (list Z) Z :=
  world_of (Some (hub hub_queue)) (Some (fusion fusion_queue)) answers.

(** [new(std::nothrow) AkmSensor()] gave the null pointer. *)
Definition no_fusion (answers : list poll_answer) : world (list Z) Z :=
  world_of (Some (hub [10; 11; 12])) None answers.

(** The fusion driver refuses to be enabled. *)
Definition fusion_refuses : world (list Z) Z :=
  world_of (Some (hub [])) (Some failing_fusion) [].

(** No call is pending: both queues hold records, [poll] has nothing to
    answer. *)
Definition idle : world (list Z) Z := both [10; 11; 12] [20; 21] [].

(** [poll] is interrupted once and then marks the hub readable. *)
Definition hub_readable : world (list Z) Z :=
  both [10; 11; 12] [] [PollFail EINTR; PollReady [1; 0; 0]].

(** [poll] marks both drivers readable. *)
Definition both_readable : world (list Z) Z :=
  both [10; 11; 12] [20; 21] [PollReady [1; 1; 0]].

(** The hub holds five records and is marked readable. *)
Definition hub_five : world (list Z) Z :=
  both [10; 11; 12; 13; 14] [] [PollReady [1; 0; 0]].

(** [poll] is interrupted once and then marks the wake pipe readable. *)
Definition woken : world (list Z) Z :=
  both [] [] [PollFail EINTR; PollReady [0; 0; 1]].

(** [poll] fails with [EBADF]. *)
Definition poll_fails : world (list Z) Z :=
  both [10] [] [PollFail 9].

(** A hub driver whose [readEvents] reports an error, with a fusion driver
    that holds three records; [poll] marks both readable. *)
Definition erring_hub : sensor (list Z) Z :=
  {| vptr :=
       {| SensorBase.getFd := fun _ => 3;
          SensorBase.setEnable := fun d _ _ => (0, d);
          SensorBase.setDelay := fun d _ _ => (0, d);
          SensorBase.hasPendingEvents := fun _ => false;
          SensorBase.readEvents := fun d _ => ((-1, []), d);
          SensorBase.flush := fun d _ => (0, d) |};
     self := [] |}.

Definition hub_errs : world (list Z) Z :=
  world_of (Some erring_hub) (Some (fusion [20; 21; 22])) [PollReady [1; 1; 0]].

(** Nothing is buffered and [poll] is about to mark the wake pipe
    readable. *)
Definition about_to_wake : world (list Z) Z := both [] [] [PollReady [0; 0; 1]].

(** The same with the wake byte queued in the pipe. *)
Definition signalled : world (list Z) Z :=
  {| ctx := ctx about_to_wake;
     events_buf := fun _ => None;
     kern := set_pipe_bytes [WAKE_MESSAGE] (kern about_to_wake) |}.

(** The fusion driver was not constructed and [poll] fails with [EBADF]
    after an interruption. *)
Definition no_fusion_poll_fails : world (list Z) Z :=
  no_fusion [PollFail EINTR; PollFail 9].

(** The context of [idle]. *)
Definition constructed : sensors_poll_context_t (list Z) Z :=
  snd (new_sensors_poll_context_t raw (Some (hub [10; 11; 12])) (Some (fusion [20; 21]))
         0 (5, 6)).




End Sample.

(** * Properties *)

Section Properties.

Context {ids : sensors_h} {D E : Type}.

Local Abbreviation world := (world D E).

(** Unfolds the plumbing of a member function, keeping the calls of the
    drivers and of the kernel visible. *)
Ltac run_m :=
  cbv beta iota zeta delta
    [bind ret emit get_ctx get_kern get_buf put_ctx put_kern put_buf deref
     update_self call_setEnable call_setDelay call_flush call_hasPendingEvents
     call_readEvents drain_round].

(** ** The dispatch table *)

Lemma handleToDriver_hub (h : Z) :
  handleToDriver h = accelgyromag <-> In h hub_handles.
Proof.
  unfold handleToDriver, hub_handles, accelgyromag, akm, EINVAL; simpl.
  repeat match goal with
         | |- context [?a =? ?b] => destruct (Z.eqb_spec a b)
         end; split; intros; try discriminate; try tauto; intuition congruence.
Qed.

Lemma handleToDriver_range (h : Z) :
  handleToDriver h = accelgyromag \/ handleToDriver h = akm \/ handleToDriver h = - EINVAL.
Proof.
  unfold handleToDriver.
  repeat match goal with
         | |- context [?a =? ?b] => destruct (Z.eqb_spec a b)
         end; auto.
Qed.

Lemma handleToDriver_unrecognized (h : Z) :
  handleToDriver h = - EINVAL <-> ~ In h recognized_handles.
Proof.
  unfold recognized_handles. rewrite in_app_iff, <- handleToDriver_hub.
  unfold handleToDriver, accelgyromag, akm, EINVAL; simpl.
  repeat match goal with
         | |- context [?a =? ?b] => destruct (Z.eqb_spec a b)
         end; split; intros; try discriminate; try tauto; intuition congruence.
Qed.

(** C4.  [handleToDriver] is a function defined on every id.  Given that
    the label [ID_M] differs from the nine hub labels, it sends [ID_M] to
    the fusion driver [akm] and nothing else there, it sends exactly the
    nine other recognized ids to the hub driver [accelgyromag], and it gives
    [-EINVAL] exactly on the ids that are not recognized; so every
    recognized id has one owner and the two owners' ids do not overlap. *)
Theorem handleToDriver_partition (Hlabels : ~ In ID_M hub_handles) :
  handleToDriver ID_M = akm /\
  (forall h, handleToDriver h = akm <-> h = ID_M) /\
  (forall h, handleToDriver h = accelgyromag <-> In h hub_handles) /\
  (forall h, handleToDriver h = - EINVAL <-> ~ In h recognized_handles) /\
  (forall h, In h recognized_handles ->
     (handleToDriver h = accelgyromag /\ handleToDriver h <> akm) \/
     (handleToDriver h = akm /\ handleToDriver h <> accelgyromag)).
Proof.
  assert (Hakm : forall h, handleToDriver h = akm <-> h = ID_M).
  { intro h. split.
    - intro Hh. destruct (Z.eq_dec h ID_M) as [|Hne]; [assumption | exfalso].
      destruct (in_dec Z.eq_dec h hub_handles) as [Hin | Hout].
      + apply handleToDriver_hub in Hin. rewrite Hin in Hh. discriminate.
      + assert (Hun : ~ In h recognized_handles).
        { unfold recognized_handles. rewrite in_app_iff.
          intros [Hin | [Heq | []]]; [contradiction | congruence]. }
        apply handleToDriver_unrecognized in Hun. rewrite Hun in Hh. discriminate.
    - intros ->. destruct (handleToDriver_range ID_M) as [H0 | [H1 | H2]].
      + apply handleToDriver_hub in H0. contradiction.
      + assumption.
      + apply handleToDriver_unrecognized in H2. exfalso. apply H2.
        unfold recognized_handles. rewrite in_app_iff. simpl. auto. }
  split; [apply Hakm; reflexivity |].
  split; [exact Hakm |].
  split; [exact handleToDriver_hub |].
  split; [exact handleToDriver_unrecognized |].
  intros h Hin. unfold recognized_handles in Hin. apply in_app_iff in Hin.
  destruct Hin as [Hin | [<- | []]].
  - left. apply handleToDriver_hub in Hin. rewrite Hin. split; [reflexivity | discriminate].
  - right. assert (H1 : handleToDriver ID_M = akm) by (apply Hakm; reflexivity).
    rewrite H1. split; [reflexivity | discriminate].
Qed.

(** ** The control operations *)

(** C10.  On an id that the dispatch table does not recognize, [activate]
    and [setDelay] return [-EINVAL], perform no action at all (no method of
    a driver is called, nothing is handed to [write]) and leave the state as
    it was. *)
Theorem unrecognized_handle_rejected (w : world) (handle enabled ns : Z)
    (Hunknown : ~ In handle recognized_handles) :
  activate handle enabled w = ([], Returns (- EINVAL) w) /\
  setDelay handle ns w = ([], Returns (- EINVAL) w).
Proof.
  apply handleToDriver_unrecognized in Hunknown.
  unfold activate, setDelay. rewrite Hunknown. split; reflexivity.
Qed.

(** C8.  [batch] is [setDelay] on the id and the interval: the same actions,
    the same result and the same final state, whatever the flags and the
    timeout are. *)
Theorem batch_is_setDelay (handle flags ns timeout : Z) (w : world) :
  batch handle flags ns timeout w = setDelay handle ns w /\
  (forall flags' timeout', batch handle flags' ns timeout' w = batch handle flags ns timeout w).
Proof.
  split; reflexivity.
Qed.

(** C9.  With the hub driver constructed, [flush] of any id calls the
    [flush] of the hub driver, once and with that id, calls nothing else,
    returns what the hub's [flush] returned, and changes nothing but the
    state of the hub driver; the slot of the fusion driver is as before. *)
Theorem flush_routes_to_hub (w : world) (handle : Z) (hub : sensor D E)
    (Hlive : mSensors (ctx w) (Z.to_nat accelgyromag) = Some hub) :
  let r := SensorBase.flush (vptr hub) (self hub) handle in
  exists w',
    flush handle w = ([CallFlush (Z.to_nat accelgyromag) handle], Returns (fst r) w') /\
    mSensors (ctx w') (Z.to_nat accelgyromag) = Some {| vptr := vptr hub; self := snd r |} /\
    mSensors (ctx w') (Z.to_nat akm) = mSensors (ctx w) (Z.to_nat akm) /\
    mPollFds (ctx w') = mPollFds (ctx w) /\
    events_buf w' = events_buf w /\ kern w' = kern w.
Proof.
  simpl in *. unfold flush, call_flush, bind, deref. simpl. rewrite Hlive.
  destruct (SensorBase.flush (vptr hub) (self hub) handle) as [err d]. simpl.
  eexists. split; [reflexivity |]. simpl. repeat split.
Qed.

(** C3.  With the driver that owns the id constructed, [activate] returns:
    [-EINVAL] on an id without owner, and otherwise what the owner's
    [setEnable] returned.  It hands exactly one byte, ['W'], to [write] on
    the write end of the wake pipe when the id is [ID_M], [enabled] is not
    zero and [setEnable] returned zero, and it hands nothing to [write] in
    every other case.  The byte is queued in the pipe when the kernel accepts
    the write. *)
Theorem activate_wake_byte (w : world) (handle enabled : Z)
    (Hlive : 0 <= handleToDriver handle ->
             mSensors (ctx w) (Z.to_nat (handleToDriver handle)) <> None) :
  exists acts r w',
    activate handle enabled w = (acts, Returns r w') /\
    (handleToDriver handle < 0 -> r = - EINVAL) /\
    (forall s, 0 <= handleToDriver handle ->
       mSensors (ctx w) (Z.to_nat (handleToDriver handle)) = Some s ->
       r = fst (SensorBase.setEnable (vptr s) (self s) handle enabled)) /\
    wake_writes acts =
      (if (handle =? ID_M) && negb (enabled =? 0) && (r =? 0)
       then [(mWritePipeFd (ctx w), WAKE_MESSAGE)] else []) /\
    pipe_bytes (kern w') =
      pipe_bytes (kern w) ++
      (if (handle =? ID_M) && negb (enabled =? 0) && (r =? 0) && write_lands w
       then [WAKE_MESSAGE] else []).
Proof.
  unfold activate.
  destruct (Z.ltb_spec (handleToDriver handle) 0) as [Hneg | Hpos].
  - assert (Hr : handleToDriver handle = - EINVAL).
    { destruct (handleToDriver_range handle) as [H | [H | H]]; rewrite H in *;
        unfold accelgyromag, akm in *; try lia; reflexivity. }
    exists [], (- EINVAL), w. split; [reflexivity |].
    split; [reflexivity |]. split; [intros; lia |].
    rewrite andb_false_r. simpl. rewrite app_nil_r. split; reflexivity.
  - specialize (Hlive Hpos).
    destruct (mSensors (ctx w) (Z.to_nat (handleToDriver handle))) as [s |] eqn:Hs;
      [| contradiction].
    unfold bind at 1. unfold call_setEnable, bind, deref, emit, update_self, get_ctx,
      put_ctx, ret. rewrite Hs.
    destruct (SensorBase.setEnable (vptr s) (self s) handle enabled) as [err d] eqn:Hcall.
    simpl.
    destruct ((handle =? ID_M) && negb (enabled =? 0) && (err =? 0)) eqn:Hwake; simpl.
    + unfold sys_write, bind, get_kern, put_kern, emit, ret, ALOGE_IF, write_lands. simpl.
      destruct ((mWritePipeFd (ctx w) =? pipe_wr (kern w))
                && Nat.ltb (length (pipe_bytes (kern w))) (pipe_capacity (kern w)));
        simpl; do 3 eexists; (split; [reflexivity |]); simpl;
        (split; [intros; lia |]);
        (split; [intros s' _ Hs'; injection Hs' as <-; rewrite Hcall; reflexivity |]);
        rewrite Hwake; simpl; rewrite ?app_nil_r; split; reflexivity.
    + do 3 eexists. split; [reflexivity |]. simpl.
      split; [intros; lia |].
      split; [intros s' _ Hs'; injection Hs' as <-; rewrite Hcall; reflexivity |].
      rewrite Hwake. simpl. rewrite app_nil_r. split; reflexivity.
Qed.

(** C1.  A call through a null slot of [mSensors] is not caught: where the
    driver that owns an id was not constructed, [activate] and [setDelay]
    on that id end in a call through the null pointer instead of returning
    an error, and so does a round of the drain loop of [pollEvents] that
    reaches the slot with capacity left. *)
Theorem absent_source_null_deref (w : world) (handle : Z)
    (Hdrv : 0 <= handleToDriver handle)
    (Habsent : mSensors (ctx w) (Z.to_nat (handleToDriver handle)) = None) :
  (forall enabled, activate handle enabled w = ([], NullDeref)) /\
  (forall ns, setDelay handle ns w = ([], NullDeref)) /\
  (forall n count nbEvents data, count <> 0 ->
     drain_round (Z.to_nat (handleToDriver handle)) count nbEvents data w = ([], NullDeref) /\
     drain_loop (S n) (Z.to_nat (handleToDriver handle)) count nbEvents data w
     = ([], NullDeref)).
Proof.
  assert (Hlt : (handleToDriver handle <? 0) = false) by (apply Z.ltb_ge; assumption).
  split; [| split].
  - intro enabled. unfold activate. cbv zeta. rewrite Hlt.
    run_m. rewrite Habsent. reflexivity.
  - intro ns. unfold setDelay. cbv zeta. rewrite Hlt.
    run_m. rewrite Habsent. reflexivity.
  - intros n count nbEvents data Hcount.
    assert (Hround : drain_round (Z.to_nat (handleToDriver handle)) count nbEvents data w
                     = ([], NullDeref)).
    { run_m.
      destruct (negb (Z.land (revents (mPollFds (ctx w) (Z.to_nat (handleToDriver handle))))
                        POLLIN =? 0));
        rewrite Habsent; reflexivity. }
    split; [exact Hround |].
    simpl. apply Z.eqb_neq in Hcount. rewrite Hcount.
    unfold bind. rewrite Hround. reflexivity.
Qed.

(** ** Lists of actions *)

Lemma collected_app (l1 l2 : list action) :
  collected (l1 ++ l2) = collected l1 + collected l2.
Proof.
  induction l1 as [| a l1 IH]; [reflexivity |].
  destruct a; simpl; rewrite IH; lia.
Qed.

Lemma successful_waits_app (l1 l2 : list action) :
  successful_waits (l1 ++ l2) = (successful_waits l1 + successful_waits l2)%nat.
Proof.
  induction l1 as [| a l1 IH]; [reflexivity |].
  destruct a as [? ? [r |] | | | | | | | | | |]; simpl; try assumption.
  destruct (0 <=? r); simpl; rewrite IH; reflexivity.
Qed.

Lemma no_wait_no_success (acts : list action) :
  Forall (fun a => is_wait a = false) acts -> successful_waits acts = 0%nat.
Proof.
  induction 1 as [| a acts Ha _ IH]; [reflexivity |].
  destruct a; simpl in *; try assumption. discriminate.
Qed.

Lemma no_delegate_no_records (acts : list action) :
  Forall (fun a => is_delegate_call a = false) acts -> collected acts = 0.
Proof.
  induction 1 as [| a acts Ha _ IH]; [reflexivity |].
  destruct a; simpl in *; try assumption. discriminate.
Qed.

Lemma poll_protocol_app (l1 l2 : list action) : forall count nbEvents,
  poll_protocol count nbEvents (l1 ++ l2) <->
  poll_protocol count nbEvents l1 /\
  poll_protocol (count - collected l1) (nbEvents + collected l1) l2.
Proof.
  induction l1 as [| a l1 IH]; intros count nbEvents.
  - simpl. rewrite Z.sub_0_r, Z.add_0_r. tauto.
  - destruct a; simpl; rewrite ?IH, ?Z.sub_add_distr, ?Z.add_assoc; tauto.
Qed.

(** In a list of actions that follows the protocol, a wait that comes after
    [pre] has the timeout that the records collected in [pre] select, and a
    driver is consulted after [pre] only if [pre] left capacity. *)
Lemma poll_protocol_split (count nbEvents : Z) (pre post : list action) (a : action) :
  poll_protocol count nbEvents (pre ++ a :: post) ->
  (forall nfds t r, a = SysPoll nfds t r ->
     t = if nbEvents + collected pre =? 0 then -1 else 0) /\
  (is_source_call a = true -> count - collected pre <> 0).
Proof.
  intro H. apply poll_protocol_app in H. destruct H as [_ H].
  split.
  - intros nfds t r ->. simpl in H. tauto.
  - destruct a; simpl in *; try discriminate; tauto.
Qed.

Lemma poll_protocol_reads_bounded (acts : list action) : forall count nbEvents,
  poll_protocol count nbEvents acts ->
  (forall j d c r, In (CallReadEvents j d c r) acts -> 0 < c -> r <= c) ->
  0 <= count ->
  collected acts <= count.
Proof.
  induction acts as [| a acts IH]; intros count nbEvents Hp Hb Hc; simpl; [assumption |].
  destruct a; simpl in Hp;
    try (apply (IH count nbEvents); [tauto | intros; eapply Hb; [right |]; eassumption | assumption]).
  destruct Hp as (Hnz & -> & Hp).
  assert (Hnb : nb <= count) by (eapply Hb; [left; reflexivity | lia]).
  assert (collected acts <= count - nb).
  { apply (IH _ _ Hp); [intros; eapply Hb; [right |]; eassumption | lia]. }
  lia.
Qed.

Lemma poll_ret_nonneg (revs : list Z) : (0 <=? poll_ret revs) = true.
Proof. apply Z.leb_le. unfold poll_ret. lia. Qed.

(** ** The wait *)

Lemma wait_actions_one_success (k : nat) (timeout : Z) (revs : list Z) :
  successful_waits (wait_actions k timeout revs) = 1%nat.
Proof.
  unfold wait_actions. induction k as [| k IH].
  - simpl. rewrite poll_ret_nonneg. reflexivity.
  - exact IH.
Qed.

Lemma wait_actions_no_delegate (k : nat) (timeout : Z) (revs : list Z) :
  Forall (fun a => is_delegate_call a = false) (wait_actions k timeout revs).
Proof.
  unfold wait_actions. induction k as [| k IH]; simpl; repeat constructor. exact IH.
Qed.

(** A wait that is interrupted [k] times and then succeeds: the context
    holds the [revents] that [poll] stored, nothing else changed. *)
Lemma wait_loop_ready (k : nat) (revs : list Z) (rest : list poll_answer) (nbEvents : Z) :
  forall w : world,
    wait_loop (interrupted_then_ready k revs rest) nbEvents w
    = (wait_actions k (if nbEvents =? 0 then -1 else 0) revs,
       Returns (inr tt)
         (with_ctx (store_revents revs (ctx w))
            (with_kern (set_poll_answers rest (kern w)) w))).
Proof.
  induction k as [| k IH]; intro w.
  - reflexivity.
  - change (interrupted_then_ready (S k) revs rest)
      with (PollFail EINTR :: interrupted_then_ready k revs rest).
    cbn [wait_loop]. unfold pop_answer. run_m.
    change (EINTR =? EINTR) with true. cbv iota.
    rewrite IH. reflexivity.
Qed.

(** Every wait of the loop is made with the timeout that [nbEvents]
    selects, no driver is called, and the loop ends in one of three ways: a
    successful wait, a failure of [poll] other than [EINTR], or no answer. *)
Lemma wait_loop_trace (answers : list poll_answer) (nbEvents count : Z) :
  forall (w : world) acts o,
    wait_loop answers nbEvents w = (acts, o) ->
    Forall (fun a => is_delegate_call a = false) acts /\
    poll_protocol count nbEvents acts /\
    match o with
    | Returns (inr _) w' =>
        successful_waits acts = 1%nat /\
        mSensors (ctx w') = mSensors (ctx w) /\ events_buf w' = events_buf w
    | Returns (inl e) w' =>
        successful_waits acts = 0%nat /\ events_buf w' = events_buf w /\
        exists err, In (PollFail err) answers /\ err <> EINTR /\ e = - err
    | NullDeref => False
    | Blocked => successful_waits acts = 0%nat
    end.
Proof.
  induction answers as [| ans rest IH]; intros w acts o Hrun.
  - simpl in Hrun. injection Hrun as <- <-. simpl.
    split; [repeat constructor | auto].
  - destruct ans as [revs | err]; cbn [wait_loop] in Hrun; unfold pop_answer in Hrun;
      revert Hrun; run_m.
    + intro Hrun. injection Hrun as <- <-. simpl. rewrite poll_ret_nonneg.
      split; [repeat constructor | auto].
    + destruct (Z.eqb_spec err EINTR) as [-> | Hne].
      * destruct (wait_loop rest nbEvents _) as [t o'] eqn:Hrec.
        apply IH in Hrec. destruct Hrec as (Hc & Hp & Ho).
        intro Hrun. injection Hrun as <- <-. simpl.
        split; [repeat constructor; assumption |]. split; [auto |].
        destruct o' as [[e | u] w' | |]; simpl in *; try assumption.
        destruct Ho as (Hs & Hb & err & Hin & Hne & ->).
        split; [assumption |]. split; [assumption |]. eauto 6.
      * intro Hrun. injection Hrun as <- <-. simpl.
        split; [repeat constructor |]. split; [auto |]. split; [reflexivity |].
        split; [reflexivity |]. exists err. auto.
Qed.

(** ** The wake pipe *)

(** Reading the wake byte calls no driver, makes no wait and stores no
    record. *)
Lemma drain_wake_spec (w : world) :
  exists acts w',
    drain_wake w = (acts, Returns tt w') /\
    events_buf w' = events_buf w /\
    mSensors (ctx w') = mSensors (ctx w) /\
    Forall (fun a => is_wait a = false) acts /\
    Forall (fun a => is_delegate_call a = false) acts /\
    (forall count nbEvents, poll_protocol count nbEvents acts).
Proof.
  unfold drain_wake. run_m.
  destruct (negb (Z.land (revents (mPollFds (ctx w) (Z.to_nat wake))) POLLIN =? 0)).
  - unfold sys_read. run_m.
    destruct (pipe_bytes (kern w)) as [| b bytes];
      [| destruct (fd (mPollFds (ctx w) (Z.to_nat wake)) =? pipe_rd (kern w))];
      cbv beta iota zeta;
      match goal with
      | |- context [ALOGE_IF (?r <? 0) _] =>
          destruct (r <? 0); unfold ALOGE_IF at 1; run_m
      end;
      match goal with
      | |- context [ALOGE_IF ?c _] => destruct c; unfold ALOGE_IF; run_m
      end;
      do 2 eexists; (split; [reflexivity |]); simpl;
      (split; [reflexivity |]); (split; [reflexivity |]);
      (split; [repeat constructor |]); (split; [repeat constructor |]);
      intros; exact I.
  - exists [], w. split; [reflexivity |]. split; [reflexivity |]. split; [reflexivity |].
    split; [constructor |]. split; [constructor |]. intros; exact I.
Qed.

(** ** The drain loop *)

(** A round at index [i] with capacity left: what it does and how it
    ends. *)
Lemma drain_round_trace (i : nat) (count nbEvents data : Z) (w : world) acts o :
  drain_round i count nbEvents data w = (acts, o) ->
  count <> 0 ->
  poll_protocol count nbEvents acts /\
  Forall (fun a => is_wait a = false) acts /\
  (forall j d c r, In (CallReadEvents j d c r) acts ->
     j = i /\ exists s, mSensors (ctx w) i = Some s /\
                        r = fst (fst (SensorBase.readEvents (vptr s) (self s) c))) /\
  match o with
  | Returns (count', nbEvents', data') w' =>
      count' = count - collected acts /\
      nbEvents' = nbEvents + collected acts /\
      data' = data + collected acts /\
      (forall j, j <> i -> mSensors (ctx w') j = mSensors (ctx w) j)
  | NullDeref => mSensors (ctx w) i = None
  | Blocked => False
  end.
Proof.
  intros Hrun Hcount. revert Hrun. run_m.
  destruct (negb (Z.land (revents (mPollFds (ctx w) i)) POLLIN =? 0)) eqn:Hflag;
    destruct (mSensors (ctx w) i) as [s |] eqn:Hs; cbv beta iota zeta;
    try (intro Hrun; injection Hrun as <- <-; simpl;
         split; [exact I |]; split; [constructor |];
         split; [intros ? ? ? ? [] | reflexivity]).
  - destruct (SensorBase.readEvents (vptr s) (self s) count) as [[nb recs] d] eqn:Hread.
    cbv beta iota zeta.
    intro Hrun. injection Hrun as <- <-. simpl.
    split; [auto |]. split; [repeat constructor |]. split.
    + intros j d0 c r [Heq | []]. injection Heq as <- <- <- <-.
      split; [reflexivity |]. exists s. rewrite Hread. auto.
    + repeat split; try lia. intros j Hj. apply Nat.eqb_neq in Hj. rewrite Hj. reflexivity.
  - destruct (SensorBase.hasPendingEvents (vptr s) (self s)); cbv beta iota zeta.
    + rewrite Hs. cbv beta iota zeta.
      destruct (SensorBase.readEvents (vptr s) (self s) count) as [[nb recs] d] eqn:Hread.
      cbv beta iota zeta.
      intro Hrun. injection Hrun as <- <-. simpl.
      split; [auto |]. split; [repeat constructor |]. split.
      * intros j d0 c r [Heq | [Heq | []]]; [discriminate |]. injection Heq as <- <- <- <-.
        split; [reflexivity |]. exists s. rewrite Hread. auto.
      * repeat split; try lia. intros j Hj. apply Nat.eqb_neq in Hj. rewrite Hj. reflexivity.
    + intro Hrun. injection Hrun as <- <-. simpl.
      split; [auto |]. split; [repeat constructor |]. split.
      * intros j d0 c r [Heq | []]. discriminate.
      * repeat split; lia.
Qed.

(** The loop from index [i] on: it follows the protocol, every drain is a
    call of the driver in that slot as it was when the loop was entered, and
    the count of events is what the drains returned. *)
Lemma drain_loop_trace (n : nat) :
  forall (i : nat) (count nbEvents data : Z) (w : world) acts o,
    drain_loop n i count nbEvents data w = (acts, o) ->
    poll_protocol count nbEvents acts /\
    Forall (fun a => is_wait a = false) acts /\
    (forall j d c r, In (CallReadEvents j d c r) acts ->
       (i <= j)%nat /\
       exists s, mSensors (ctx w) j = Some s /\
                 r = fst (fst (SensorBase.readEvents (vptr s) (self s) c))) /\
    match o with
    | Returns (_, nbEvents', _) _ => nbEvents' = nbEvents + collected acts
    | NullDeref => True
    | Blocked => False
    end.
Proof.
  induction n as [| n IH]; intros i count nbEvents data w acts o Hrun.
  - simpl in Hrun. injection Hrun as <- <-. simpl.
    split; [exact I |]. split; [constructor |]. split; [intros ? ? ? ? [] | lia].
  - cbn [drain_loop] in Hrun.
    destruct (Z.eqb_spec count 0) as [Hz | Hnz].
    + injection Hrun as <- <-. simpl.
      split; [exact I |]. split; [constructor |]. split; [intros ? ? ? ? [] | lia].
    + unfold bind in Hrun.
      destruct (drain_round i count nbEvents data w) as [t1 o1] eqn:Hround.
      destruct (drain_round_trace _ _ _ _ _ _ _ Hround Hnz) as (Hp1 & Hs1 & Hr1 & Ho1).
      destruct o1 as [[[count' nbEvents'] data'] w1 | |].
      * destruct (drain_loop n (S i) count' nbEvents' data' w1) as [t2 o2] eqn:Hrec.
        injection Hrun as <- <-.
        destruct (IH _ _ _ _ _ _ _ Hrec) as (Hp2 & Hs2 & Hr2 & Ho2).
        destruct Ho1 as (-> & -> & -> & Hkeep).
        split; [apply poll_protocol_app; auto |].
        split; [apply Forall_app; auto |].
        split.
        -- intros j d c r Hin. apply in_app_iff in Hin. destruct Hin as [Hin | Hin].
           ++ destruct (Hr1 _ _ _ _ Hin) as (Hj & Hex). subst j. split; [lia | exact Hex].
           ++ destruct (Hr2 _ _ _ _ Hin) as (Hle & s & Hs & Hr).
              split; [lia |]. exists s. rewrite <- Hkeep by lia. auto.
        -- destruct o2 as [[[c2 nb2] d2] w2 | |]; auto.
           rewrite collected_app. lia.
      * injection Hrun as <- <-.
        split; [assumption |]. split; [assumption |]. split; [| exact I].
        intros j d c r Hin. destruct (Hr1 _ _ _ _ Hin) as (Hj & Hex). subst j.
        split; [lia | exact Hex].
      * destruct Ho1.
Qed.

(** ** [pollEvents] as its three parts *)

Lemma pollEvents_parts (count : Z) (w : world) acts o :
  pollEvents count w = (acts, o) ->
  exists t1 o1,
    wait_loop (poll_answers (kern w)) 0 w = (t1, o1) /\
    match o1 with
    | Returns (inl e) w1 => acts = t1 /\ o = Returns e w1
    | Returns (inr _) w1 =>
        exists t2 o2,
          drain_loop (Z.to_nat numSensorDrivers) 0 count 0 0 w1 = (t2, o2) /\
          match o2 with
          | Returns (_, nbEvents, _) w2 =>
              exists t3 w3,
                drain_wake w2 = (t3, Returns tt w3) /\
                acts = t1 ++ t2 ++ t3 /\ o = Returns nbEvents w3
          | NullDeref => acts = t1 ++ t2 /\ o = NullDeref
          | Blocked => acts = t1 ++ t2 /\ o = Blocked
          end
    | NullDeref => acts = t1 /\ o = NullDeref
    | Blocked => acts = t1 /\ o = Blocked
    end.
Proof.
  unfold pollEvents. run_m.
  destruct (wait_loop (poll_answers (kern w)) 0 w) as [t1 o1] eqn:Hwait.
  intro Hrun. exists t1, o1. split; [reflexivity |].
  destruct o1 as [[e | u] w1 | |].
  - injection Hrun as <- <-. rewrite app_nil_r. auto.
  - destruct (drain_loop (Z.to_nat numSensorDrivers) 0 count 0 0 w1) as [t2 o2] eqn:Hdrain.
    exists t2, o2. split; [reflexivity |].
    destruct o2 as [[[c2 nb2] d2] w2 | |].
    + destruct (drain_wake_spec w2) as (t3 & w3 & Hwake & _).
      rewrite Hwake in Hrun. injection Hrun as <- <-.
      exists t3, w3. rewrite app_nil_r. auto.
    + injection Hrun as <- <-. auto.
    + injection Hrun as <- <-. auto.
  - injection Hrun as <- <-. auto.
  - injection Hrun as <- <-. auto.
Qed.

(** A call of [pollEvents] is a wait that calls no driver, followed by
    drains and the read of the wake byte, which make no wait; the whole
    follows the protocol from no record collected. *)
Lemma pollEvents_trace (count : Z) (w : world) acts o :
  pollEvents count w = (acts, o) ->
  poll_protocol count 0 acts /\
  exists t1 t2,
    acts = t1 ++ t2 /\
    Forall (fun a => is_delegate_call a = false) t1 /\
    Forall (fun a => is_wait a = false) t2 /\
    (forall j d c r, In (CallReadEvents j d c r) acts ->
       exists s, mSensors (ctx w) j = Some s /\
                 r = fst (fst (SensorBase.readEvents (vptr s) (self s) c))) /\
    (forall n w', o = Returns n w' -> successful_waits acts = 1%nat -> n = collected acts).
Proof.
  intro Hrun. apply pollEvents_parts in Hrun.
  destruct Hrun as (t1 & o1 & Hwait & Hrest).
  destruct (wait_loop_trace _ _ count _ _ _ Hwait) as (Hd1 & Hp1 & Ho1).
  pose proof (no_delegate_no_records _ Hd1) as Hc1.
  assert (Hno1 : forall j d c r, ~ In (CallReadEvents j d c r) t1).
  { intros j d c r Hin. rewrite Forall_forall in Hd1. apply Hd1 in Hin. discriminate. }
  assert (Hwait_only :
            acts = t1 ->
            (forall n w', o = Returns n w' -> successful_waits acts = 1%nat -> False) ->
            poll_protocol count 0 acts /\
            exists t1 t2,
              acts = t1 ++ t2 /\
              Forall (fun a => is_delegate_call a = false) t1 /\
              Forall (fun a => is_wait a = false) t2 /\
              (forall j d c r, In (CallReadEvents j d c r) acts ->
                 exists s, mSensors (ctx w) j = Some s /\
                           r = fst (fst (SensorBase.readEvents (vptr s) (self s) c))) /\
              (forall n w', o = Returns n w' -> successful_waits acts = 1%nat ->
                            n = collected acts)).
  { intros -> Hnot. split; [assumption |]. exists t1, [].
    rewrite app_nil_r. split; [reflexivity |]. split; [assumption |].
    split; [constructor |]. split.
    - intros j d c r Hin. destruct (Hno1 _ _ _ _ Hin).
    - intros n w' Ho Hs. destruct (Hnot _ _ Ho Hs). }
  destruct o1 as [[e | u] w1 | |].
  - destruct Hrest as [-> ->]. apply Hwait_only; [reflexivity |].
    intros n w' _ Hs. destruct Ho1 as [Hz _]. rewrite Hz in Hs. discriminate.
  - destruct Ho1 as (Hs1 & Hsens & Hbuf).
    destruct Hrest as (t2 & o2 & Hdrain & Hrest).
    destruct (drain_loop_trace _ _ _ _ _ _ _ _ Hdrain) as (Hp2 & Hw2 & Hr2 & Ho2).
    assert (H12 : poll_protocol count 0 (t1 ++ t2)).
    { apply poll_protocol_app. rewrite Hc1, Z.sub_0_r. auto. }
    assert (Hreads : forall t3, Forall (fun a => is_delegate_call a = false) t3 ->
              forall j d c r, In (CallReadEvents j d c r) (t1 ++ t2 ++ t3) ->
              exists s, mSensors (ctx w) j = Some s /\
                        r = fst (fst (SensorBase.readEvents (vptr s) (self s) c))).
    { intros t3 Hd3 j d c r Hin.
      apply in_app_iff in Hin. destruct Hin as [Hin | Hin]; [destruct (Hno1 _ _ _ _ Hin) |].
      apply in_app_iff in Hin. destruct Hin as [Hin | Hin].
      - destruct (Hr2 _ _ _ _ Hin) as (_ & s & Hs & Hr). exists s. rewrite <- Hsens. auto.
      - rewrite Forall_forall in Hd3. apply Hd3 in Hin. discriminate. }
    destruct o2 as [[[c2 nb2] d2] w2 | |].
    + destruct Hrest as (t3 & w3 & Hwake & -> & ->).
      destruct (drain_wake_spec w2) as (t3' & w3' & Hwake' & _ & _ & Hw3 & Hd3 & Hp3).
      rewrite Hwake in Hwake'. injection Hwake' as <- <-.
      split; [rewrite app_assoc; apply poll_protocol_app; auto |].
      exists t1, (t2 ++ t3). split; [reflexivity |]. split; [assumption |].
      split; [apply Forall_app; auto |]. split; [exact (Hreads t3 Hd3) |].
      intros n w' Hret _. injection Hret as <- <-.
      rewrite !collected_app, Hc1, (no_delegate_no_records _ Hd3). lia.
    + destruct Hrest as [-> ->].
      split; [assumption |]. exists t1, t2. split; [reflexivity |].
      split; [assumption |]. split; [assumption |]. split.
      * intros j d c r Hin. apply (Hreads [] (Forall_nil _) j d c r).
        rewrite app_nil_r. assumption.
      * intros n w' Hret. discriminate.
    + destruct Ho2.
  - destruct Ho1.
  - destruct Hrest as [-> ->]. apply Hwait_only; [reflexivity |].
    intros n w' Hret. discriminate.
Qed.

(** In a call of [pollEvents] every wait is made before any record is
    collected: the loop around [poll] is left before the drivers are
    drained and is not entered again. *)
Lemma pollEvents_waits_before_drains (count : Z) (w : world) acts o pre post nfds timeout r :
  pollEvents count w = (acts, o) ->
  acts = pre ++ SysPoll nfds timeout r :: post ->
  collected pre = 0 /\ timeout = -1.
Proof.
  intros Hrun Hsplit.
  destruct (pollEvents_trace _ _ _ _ Hrun) as (Hp & t1 & t2 & Hacts & Hd1 & Hw2 & _).
  assert (Hpre : collected pre = 0).
  { rewrite Hacts in Hsplit. apply app_eq_app in Hsplit.
    destruct Hsplit as (l & [[-> Hl] | [-> Hl]]).
    - apply no_delegate_no_records. apply Forall_app in Hd1. tauto.
    - exfalso. rewrite Forall_forall in Hw2.
      specialize (Hw2 (SysPoll nfds timeout r)). simpl in Hw2.
      assert (true = false); [| discriminate].
      apply Hw2. rewrite Hl. apply in_or_app. right. left. reflexivity. }
  split; [assumption |].
  rewrite Hsplit in Hp. apply poll_protocol_split in Hp. destruct Hp as [Ht _].
  rewrite (Ht _ _ _ eq_refl), Hpre. reflexivity.
Qed.


(** C7.  With capacity zero, when [poll] succeeds (after any number of
    interruptions), [pollEvents] returns [0]; exactly one of its waits
    succeeded, every wait had the timeout [-1], and no method of a driver
    was called. *)
Theorem pollEvents_zero_capacity (w : world) (k : nat) (revs : list Z) (rest : list poll_answer)
    (Hwait : poll_answers (kern w) = interrupted_then_ready k revs rest) :
  exists acts w',
    pollEvents 0 w = (acts, Returns 0 w') /\
    successful_waits acts = 1%nat /\
    Forall (fun a => is_delegate_call a = false) acts /\
    (forall nfds timeout r, In (SysPoll nfds timeout r) acts -> timeout = -1).
Proof.
  unfold pollEvents. run_m. rewrite Hwait, wait_loop_ready.
  change (drain_loop (Z.to_nat numSensorDrivers) 0 0 0 0) with (@ret D E _ (0, 0, 0)).
  run_m.
  match goal with
  | |- context [drain_wake ?w1] =>
      destruct (drain_wake_spec w1) as (t3 & w3 & Hwake & _ & _ & Hw3 & Hd3 & _);
        rewrite Hwake
  end.
  do 2 eexists. split; [reflexivity |].
  rewrite !app_nil_r. simpl app.
  split; [| split].
  - rewrite successful_waits_app, wait_actions_one_success, (no_wait_no_success _ Hw3).
    reflexivity.
  - apply Forall_app. split; [apply wait_actions_no_delegate | assumption].
  - intros nfds timeout r Hin. apply in_app_iff in Hin. destruct Hin as [Hin | Hin].
    + clear - Hin. unfold wait_actions in Hin. induction k as [| k IH]; simpl in Hin.
      * destruct Hin as [Heq | []]. injection Heq as _ <- _. reflexivity.
      * destruct Hin as [Heq | [Heq | Hin]]; [| discriminate | exact (IH Hin)].
        injection Heq as _ <- _. reflexivity.
    + rewrite Forall_forall in Hw3. apply Hw3 in Hin. discriminate.
Qed.

(** ** The caller's array *)

Lemma store_records_out (recs : list E) : forall (b : Z -> option E) (off j : Z),
  j < off \/ off + Z.of_nat (length recs) <= j ->
  store_records b off recs j = b j.
Proof.
  induction recs as [| r recs IH]; intros b off j Hj; [reflexivity |].
  simpl store_records. rewrite IH by (simpl length in Hj; lia).
  destruct (Z.eqb_spec j off) as [-> | _]; [simpl length in Hj; lia | reflexivity].
Qed.

Lemma store_records_in (recs : list E) : forall (b : Z -> option E) (off : Z) (i : nat) (r : E),
  nth_error recs i = Some r ->
  store_records b off recs (off + Z.of_nat i) = Some r.
Proof.
  induction recs as [| r0 recs IH]; intros b off i r Hi; [destruct i; discriminate |].
  destruct i as [| i]; simpl in Hi.
  - injection Hi as ->. cbn [store_records].
    rewrite store_records_out by lia.
    change (Z.of_nat 0) with 0. rewrite Z.add_0_r, Z.eqb_refl. reflexivity.
  - replace (off + Z.of_nat (S i)) with (off + 1 + Z.of_nat i) by lia.
    cbn [store_records]. apply IH. assumption.
Qed.

(** A round at index [i] for a constructed driver that is ready: it is
    drained into the array at [data], its state and the locals move on. *)
Lemma drain_round_ready (i : nat) (count nbEvents data : Z) (w : world)
    (s : sensor D E) (nb : Z) (recs : list E) (d : D) :
  mSensors (ctx w) i = Some s ->
  negb (Z.land (revents (mPollFds (ctx w) i)) POLLIN =? 0)
  || SensorBase.hasPendingEvents (vptr s) (self s) = true ->
  SensorBase.readEvents (vptr s) (self s) count = ((nb, recs), d) ->
  drain_round i count nbEvents data w
  = ((if negb (Z.land (revents (mPollFds (ctx w) i)) POLLIN =? 0)
      then [] else [CallHasPendingEvents i])
     ++ [CallReadEvents i data count nb],
     Returns (count - nb, nbEvents + nb, data + nb)
       (with_ctx
          (set_revents i 0 (set_sensor i (Some {| vptr := vptr s; self := d |}) (ctx w)))
          (with_buf (store_records (events_buf w) data recs) w))).
Proof.
  intros Hs Hready Hread. run_m.
  destruct (negb (Z.land (revents (mPollFds (ctx w) i)) POLLIN =? 0));
    simpl in Hready; rewrite Hs; cbv beta iota zeta;
    rewrite ?Hready; cbv beta iota zeta; rewrite ?Hs, Hread; reflexivity.
Qed.

(** C5.  In a call of [pollEvents] in which [poll] succeeds, both drivers
    are constructed and ready (marked readable or with buffered events), the
    hub driver returns the number of records it stored and leaves capacity:
    the hub is drained at the start of the array and the fusion driver right
    behind it, so every record of the hub lies in the array before every
    record of the fusion driver, and the records of each driver lie in the
    order in which its [readEvents] stored them. *)
Theorem pollEvents_hub_records_first (w : world) (count : Z)
    (k : nat) (revs : list Z) (rest : list poll_answer)
    (hub fus : sensor D E) (nb0 nb1 : Z) (recs0 recs1 : list E) (d0 d1 : D)
    (Hwait : poll_answers (kern w) = interrupted_then_ready k revs rest)
    (Hhub : mSensors (ctx w) (Z.to_nat accelgyromag) = Some hub)
    (Hfus : mSensors (ctx w) (Z.to_nat akm) = Some fus)
    (Hready0 : source_ready revs (Z.to_nat accelgyromag) hub = true)
    (Hready1 : source_ready revs (Z.to_nat akm) fus = true)
    (Hcount : count <> 0)
    (Hread0 : SensorBase.readEvents (vptr hub) (self hub) count = ((nb0, recs0), d0))
    (Hlen0 : nb0 = Z.of_nat (length recs0))
    (Hleft : count - nb0 <> 0)
    (Hread1 : SensorBase.readEvents (vptr fus) (self fus) (count - nb0) = ((nb1, recs1), d1)) :
  exists acts w',
    pollEvents count w = (acts, Returns (nb0 + nb1) w') /\
    In (CallReadEvents (Z.to_nat accelgyromag) 0 count nb0) acts /\
    In (CallReadEvents (Z.to_nat akm) nb0 (count - nb0) nb1) acts /\
    (forall i r, nth_error recs0 i = Some r -> events_buf w' (Z.of_nat i) = Some r) /\
    (forall j r, nth_error recs1 j = Some r -> events_buf w' (nb0 + Z.of_nat j) = Some r) /\
    (forall i j, (i < length recs0)%nat -> (j < length recs1)%nat ->
       Z.of_nat i < nb0 + Z.of_nat j).
Proof.
  change (Z.to_nat accelgyromag) with 0%nat in *.
  change (Z.to_nat akm) with 1%nat in *.
  unfold pollEvents. run_m. rewrite Hwait, wait_loop_ready.
  change (Z.to_nat numSensorDrivers) with 2%nat. cbn [drain_loop].
  apply Z.eqb_neq in Hcount. rewrite Hcount.
  set (w1 := with_ctx (store_revents revs (ctx w))
               (with_kern (set_poll_answers rest (kern w)) w)).
  assert (Hround0 := drain_round_ready 0 count 0 0 w1 hub nb0 recs0 d0 Hhub Hready0 Hread0).
  unfold bind at 1. rewrite Hround0. clear Hround0. cbv beta iota.
  rewrite !Z.add_0_l.
  apply Z.eqb_neq in Hleft. rewrite Hleft.
  set (w2 := with_ctx
               (set_revents 0 0
                  (set_sensor 0 (Some {| vptr := vptr hub; self := d0 |}) (ctx w1)))
               (with_buf (store_records (events_buf w1) 0 recs0) w1)).
  assert (Hround1 := drain_round_ready 1 (count - nb0) nb0 nb0 w2 fus nb1 recs1 d1
                       Hfus Hready1 Hread1).
  unfold bind at 1. rewrite Hround1. clear Hround1. unfold ret. cbv beta iota.
  match goal with
  | |- context [drain_wake ?w3] =>
      destruct (drain_wake_spec w3) as (t3 & w4 & Hwake & Hbuf & _); rewrite Hwake
  end.
  do 2 eexists. split; [reflexivity |].
  split; [| split; [| split; [| split]]].
  - repeat rewrite in_app_iff. simpl. auto 12.
  - repeat rewrite in_app_iff. simpl. auto 12.
  - intros i r Hi. rewrite Hbuf. simpl events_buf.
    assert (Hlt : (i < length recs0)%nat) by (apply nth_error_Some; congruence).
    rewrite store_records_out by lia.
    apply (store_records_in recs0 _ 0 i r Hi).
  - intros j r Hj. rewrite Hbuf. simpl events_buf.
    apply store_records_in. assumption.
  - intros i j Hi Hj. lia.
Qed.

(** ** Where the records are stored *)

Lemma drain_round_null (i : nat) (count nbEvents data : Z) (w : world) :
  mSensors (ctx w) i = None ->
  drain_round i count nbEvents data w = ([], NullDeref).
Proof.
  intro Hs. run_m.
  destruct (negb (Z.land (revents (mPollFds (ctx w) i)) POLLIN =? 0));
    rewrite Hs; reflexivity.
Qed.

Lemma drain_round_idle (i : nat) (count nbEvents data : Z) (w : world) (s : sensor D E) :
  mSensors (ctx w) i = Some s ->
  negb (Z.land (revents (mPollFds (ctx w) i)) POLLIN =? 0)
  || SensorBase.hasPendingEvents (vptr s) (self s) = false ->
  drain_round i count nbEvents data w
  = ([CallHasPendingEvents i], Returns (count, nbEvents, data) w).
Proof.
  intros Hs Hidle. apply orb_false_elim in Hidle. destruct Hidle as [Hflag Hpending].
  run_m. rewrite Hflag, Hs. cbv beta iota zeta. rewrite Hpending. reflexivity.
Qed.

(** With drivers that store as many records as they return, and no more
    than the capacity they are given, the drain loop stores nothing outside
    the [count] entries that start at [data]. *)
Lemma drain_loop_stores (n : nat) :
  forall (i : nat) (count nbEvents data : Z) (w : world) acts st w',
    drain_loop n i count nbEvents data w = (acts, Returns st w') ->
    0 <= count ->
    (forall k s c, (i <= k)%nat -> mSensors (ctx w) k = Some s -> 0 < c ->
       stores_what_it_returns s c) ->
    forall j, j < data \/ data + count <= j -> events_buf w' j = events_buf w j.
Proof.
  induction n as [| n IH]; intros i count nbEvents data w acts st w' Hrun Hcount Hdrv j Hj.
  - simpl in Hrun. injection Hrun as _ _ <-. reflexivity.
  - cbn [drain_loop] in Hrun.
    destruct (Z.eqb_spec count 0) as [Hz | Hnz]; [injection Hrun as _ _ <-; reflexivity |].
    unfold bind in Hrun.
    destruct (mSensors (ctx w) i) as [s |] eqn:Hs;
      [| rewrite (drain_round_null _ _ _ _ _ Hs) in Hrun; discriminate].
    destruct (negb (Z.land (revents (mPollFds (ctx w) i)) POLLIN =? 0)
              || SensorBase.hasPendingEvents (vptr s) (self s)) eqn:Hready.
    + destruct (SensorBase.readEvents (vptr s) (self s) count) as [[nb recs] d] eqn:Hread.
      rewrite (drain_round_ready _ _ _ _ _ _ _ _ _ Hs Hready Hread) in Hrun.
      assert (Hcontract : stores_what_it_returns s count) by (apply (Hdrv i); [lia | assumption | lia]).
      unfold stores_what_it_returns in Hcontract. rewrite Hread in Hcontract.
      simpl in Hcontract. destruct Hcontract as [Hnb Hlen].
      match type of Hrun with
      | context [drain_loop n (S i) ?c ?e ?d ?w2] =>
          destruct (drain_loop n (S i) c e d w2) as [t2 o2] eqn:Hrec
      end.
      destruct o2 as [st2 w2' | |]; try discriminate.
      injection Hrun as _ _ <-.
      rewrite (IH _ _ _ _ _ _ _ _ Hrec); [| lia | | lia].
      * simpl events_buf. apply store_records_out. lia.
      * intros k s' c Hk Hs' Hc. apply (Hdrv k); [lia | | assumption].
        simpl in Hs'. replace (Nat.eqb k i) with false in Hs'; [assumption |].
        symmetry. apply Nat.eqb_neq. lia.
    + rewrite (drain_round_idle _ _ _ _ _ _ Hs Hready) in Hrun.
      destruct (drain_loop n (S i) count nbEvents data w) as [t2 o2] eqn:Hrec.
      destruct o2 as [st2 w2' | |]; try discriminate.
      injection Hrun as _ _ <-.
      apply (IH _ _ _ _ _ _ _ _ Hrec); [assumption | | assumption].
      intros k s' c Hk Hs' Hc. apply (Hdrv k); [lia | assumption | assumption].
Qed.

(** With such drivers, a call of [pollEvents] with capacity [count >= 0]
    stores nothing outside [data[0]], ..., [data[count - 1]]. *)
Lemma pollEvents_stores_within_array (count : Z) (w : world) acts n w' :
  pollEvents count w = (acts, Returns n w') ->
  0 <= count ->
  (forall k s c, mSensors (ctx w) k = Some s -> 0 < c -> stores_what_it_returns s c) ->
  forall j, j < 0 \/ count <= j -> events_buf w' j = events_buf w j.
Proof.
  intros Hrun Hcount Hdrv j Hj. apply pollEvents_parts in Hrun.
  destruct Hrun as (t1 & o1 & Hwait & Hrest).
  destruct (wait_loop_trace _ _ count _ _ _ Hwait) as (_ & _ & Ho1).
  destruct o1 as [[e | u] w1 | |].
  - destruct Hrest as [_ Hret]. injection Hret as _ <-.
    destruct Ho1 as (_ & Hbuf & _). rewrite Hbuf. reflexivity.
  - destruct Ho1 as (_ & Hsens & Hbuf).
    destruct Hrest as (t2 & o2 & Hdrain & Hrest).
    destruct o2 as [[[c2 nb2] d2] w2 | |]; try (destruct Hrest as [_ Hret]; discriminate).
    destruct Hrest as (t3 & w3 & Hwake & _ & Hret). injection Hret as _ <-.
    destruct (drain_wake_spec w2) as (t3' & w3' & Hwake' & Hbuf3 & _).
    rewrite Hwake in Hwake'. injection Hwake' as _ <-.
    rewrite Hbuf3, <- Hbuf.
    apply (drain_loop_stores _ _ _ _ _ _ _ _ _ Hdrain Hcount); [| lia].
    intros k s c _ Hs Hc. apply (Hdrv k); [| assumption].
    rewrite <- Hsens. assumption.
  - destruct Ho1.
  - destruct Hrest as [_ Hret]. discriminate.
Qed.

(** C6.  For a capacity [count >= 0] and drivers whose [readEvents], given
    a capacity [c > 0], returns no more than [c]: the records collected in
    a call of [pollEvents] are at most [count], they are what the call
    returns after a successful wait, and a driver is consulted or drained
    after the actions [pre] only if [pre] left capacity.  When the drivers
    moreover store as many records as they return, and do not return less
    than zero, nothing is stored outside [data[0]], ..., [data[count - 1]]. *)
Theorem pollEvents_within_capacity (count : Z) (w : world) acts o
    (Hcap : 0 <= count)
    (Hbound : forall i s c, mSensors (ctx w) i = Some s -> 0 < c ->
                fst (fst (SensorBase.readEvents (vptr s) (self s) c)) <= c)
    (Hrun : pollEvents count w = (acts, o)) :
  collected acts <= count /\
  (forall n w', o = Returns n w' -> successful_waits acts = 1%nat ->
     n = collected acts /\ n <= count) /\
  (forall pre a post, acts = pre ++ a :: post -> is_source_call a = true ->
     count - collected pre <> 0) /\
  ((forall i s c, mSensors (ctx w) i = Some s -> 0 < c -> stores_what_it_returns s c) ->
   forall n w', o = Returns n w' ->
   forall j, j < 0 \/ count <= j -> events_buf w' j = events_buf w j).
Proof.
  destruct (pollEvents_trace _ _ _ _ Hrun) as (Hp & t1 & t2 & Hacts & Hd1 & Hw2 & Hreads & Hret).
  assert (Hle : collected acts <= count).
  { apply (poll_protocol_reads_bounded acts count 0 Hp); [| assumption].
    intros j d c r Hin Hc. destruct (Hreads _ _ _ _ Hin) as (s & Hs & ->).
    apply (Hbound j); assumption. }
  split; [assumption |]. split; [| split].
  - intros n w' Ho Hs. rewrite (Hret _ _ Ho Hs). auto.
  - intros pre a post Hsplit Ha. rewrite Hsplit in Hp.
    apply poll_protocol_split in Hp. tauto.
  - intros Hstore n w' Ho. subst o.
    exact (pollEvents_stores_within_array _ _ _ _ _ Hrun Hcap Hstore).
Qed.

(** * Further properties *)

(** ** Registration *)

Lemma same_registration_refl (c : sensors_poll_context_t D E) : same_registration c c.
Proof.
  split; [reflexivity |]. split; [auto |].
  intro i. destruct (mSensors c i); auto.
Qed.

Lemma same_registration_trans (c1 c2 c3 : sensors_poll_context_t D E) :
  same_registration c1 c2 -> same_registration c2 c3 -> same_registration c1 c3.
Proof.
  intros (Hw1 & Hp1 & Hs1) (Hw2 & Hp2 & Hs2).
  split; [congruence |]. split.
  - intro i. destruct (Hp1 i), (Hp2 i). split; congruence.
  - intro i. specialize (Hs1 i). specialize (Hs2 i).
    destruct (mSensors c1 i), (mSensors c2 i), (mSensors c3 i); try tauto. congruence.
Qed.

Lemma same_registration_set_revents (c : sensors_poll_context_t D E) (i : nat) (v : Z) :
  same_registration c (set_revents i v c).
Proof.
  split; [reflexivity |]. split.
  - intro j. simpl. destruct (Nat.eqb j i); auto.
  - intro j. simpl. destruct (mSensors c j); auto.
Qed.

Lemma same_registration_store_revents (c : sensors_poll_context_t D E) (revs : list Z) :
  same_registration c (store_revents revs c).
Proof.
  unfold store_revents. change (Z.to_nat numFds) with 3%nat. cbn [seq fold_left].
  eapply same_registration_trans; [| apply same_registration_set_revents].
  eapply same_registration_trans; [| apply same_registration_set_revents].
  apply same_registration_set_revents.
Qed.

Lemma same_registration_set_self (c : sensors_poll_context_t D E) (i : nat)
    (s : sensor D E) (d : D) :
  mSensors c i = Some s ->
  same_registration c (set_sensor i (Some {| vptr := vptr s; self := d |}) c).
Proof.
  intro Hs. split; [reflexivity |]. split; [auto |].
  intro j. simpl. destruct (Nat.eqb_spec j i) as [-> | _].
  - rewrite Hs. reflexivity.
  - destruct (mSensors c j); auto.
Qed.

(** ** The rounds of the drain loop, case by case *)

Lemma drain_round_cases (i : nat) (count nbEvents data : Z) (w : world) :
  match mSensors (ctx w) i with
  | None => drain_round i count nbEvents data w = ([], NullDeref)
  | Some s =>
      let nb := fst (fst (SensorBase.readEvents (vptr s) (self s) count)) in
      if marked (ctx w) i || SensorBase.hasPendingEvents (vptr s) (self s)
      then drain_round i count nbEvents data w
           = ((if marked (ctx w) i then [] else [CallHasPendingEvents i])
              ++ [CallReadEvents i data count nb],
              Returns (count - nb, nbEvents + nb, data + nb) (drained i s data count w))
      else drain_round i count nbEvents data w
           = ([CallHasPendingEvents i], Returns (count, nbEvents, data) w)
  end.
Proof.
  destruct (mSensors (ctx w) i) as [s |] eqn:Hs; [| apply drain_round_null; assumption].
  cbv zeta.
  destruct (marked (ctx w) i || SensorBase.hasPendingEvents (vptr s) (self s)) eqn:Hready.
  - destruct (SensorBase.readEvents (vptr s) (self s) count) as [[nb recs] d] eqn:Hread.
    rewrite (drain_round_ready _ _ _ _ _ _ _ _ _ Hs Hready Hread).
    unfold drained. rewrite Hread. reflexivity.
  - apply (drain_round_idle _ _ _ _ _ _ Hs Hready).
Qed.

Lemma drained_frame (i : nat) (s : sensor D E) (data count : Z) (w : world) :
  mSensors (ctx w) i = Some s ->
  drain_frame i (S i) w (drained i s data count w).
Proof.
  intro Hs. split; [reflexivity |]. split.
  - unfold drained. cbn [ctx with_ctx].
    eapply same_registration_trans; [| apply same_registration_set_revents].
    apply same_registration_set_self. assumption.
  - intros j Hj. unfold drained. simpl.
    replace (Nat.eqb j i) with false by (symmetry; apply Nat.eqb_neq; lia). auto.
Qed.

Lemma drain_frame_refl (lo hi : nat) (w : world) : drain_frame lo hi w w.
Proof.
  split; [reflexivity |]. split; [apply same_registration_refl | auto].
Qed.

Lemma drain_frame_step (i hi : nat) (w w1 w2 : world) :
  drain_frame i (S i) w w1 -> drain_frame (S i) hi w1 w2 -> (S i <= hi)%nat ->
  drain_frame i hi w w2.
Proof.
  intros (Hk1 & Hr1 & Hf1) (Hk2 & Hr2 & Hf2) Hle.
  split; [congruence |]. split; [eapply same_registration_trans; eassumption |].
  intros j Hj. destruct (Hf1 j) as [Hp1 Hs1]; [lia |].
  destruct (Hf2 j) as [Hp2 Hs2]; [lia |]. split; congruence.
Qed.

(** The drain loop leaves the kernel and the registration as they were,
    and touches no entry or slot outside its rounds. *)
Lemma drain_loop_frame (n : nat) :
  forall (i : nat) (count nbEvents data : Z) (w : world) acts st w',
    drain_loop n i count nbEvents data w = (acts, Returns st w') ->
    drain_frame i (i + n) w w'.
Proof.
  induction n as [| n IH]; intros i count nbEvents data w acts st w' Hrun.
  - simpl in Hrun. injection Hrun as _ _ <-. apply drain_frame_refl.
  - cbn [drain_loop] in Hrun.
    destruct (count =? 0); [injection Hrun as _ _ <-; apply drain_frame_refl |].
    unfold bind in Hrun. pose proof (drain_round_cases i count nbEvents data w) as Hcase.
    destruct (mSensors (ctx w) i) as [s |] eqn:Hs; [| rewrite Hcase in Hrun; discriminate].
    cbv zeta in Hcase.
    destruct (marked (ctx w) i || SensorBase.hasPendingEvents (vptr s) (self s));
      rewrite Hcase in Hrun; clear Hcase;
      match type of Hrun with
      | context [drain_loop n (S i) ?c ?e ?d ?w1] =>
          destruct (drain_loop n (S i) c e d w1) as [t2 o2] eqn:Hrec
      end;
      (destruct o2 as [st2 w2 | |]; try discriminate);
      injection Hrun as _ _ <-; apply IH in Hrec;
      replace (i + S n)%nat with (S i + n)%nat by lia.
    + eapply drain_frame_step; [apply drained_frame; eassumption | exact Hrec | lia].
    + eapply drain_frame_step; [apply drain_frame_refl | exact Hrec | lia].
Qed.

(** A driver is drained by the loop only if its entry was marked readable
    or it had buffered events when the loop was entered. *)
Lemma drain_loop_reads_ready (n : nat) :
  forall (i : nat) (count nbEvents data : Z) (w : world) acts o,
    drain_loop n i count nbEvents data w = (acts, o) ->
    forall j d c r, In (CallReadEvents j d c r) acts ->
      exists s, mSensors (ctx w) j = Some s /\
                marked (ctx w) j || SensorBase.hasPendingEvents (vptr s) (self s) = true.
Proof.
  induction n as [| n IH]; intros i count nbEvents data w acts o Hrun j d c r Hin.
  - simpl in Hrun. injection Hrun as <- _. destruct Hin.
  - cbn [drain_loop] in Hrun.
    destruct (count =? 0); [injection Hrun as <- _; destruct Hin |].
    unfold bind in Hrun. pose proof (drain_round_cases i count nbEvents data w) as Hcase.
    destruct (mSensors (ctx w) i) as [s |] eqn:Hs;
      [| rewrite Hcase in Hrun; injection Hrun as <- _; destruct Hin].
    cbv zeta in Hcase.
    destruct (marked (ctx w) i || SensorBase.hasPendingEvents (vptr s) (self s)) eqn:Hready;
      rewrite Hcase in Hrun; clear Hcase;
      match type of Hrun with
      | context [drain_loop n (S i) ?c ?e ?d ?w1] =>
          destruct (drain_loop n (S i) c e d w1) as [t2 o2] eqn:Hrec
      end;
      injection Hrun as <- _.
    + apply in_app_iff in Hin. destruct Hin as [Hin | Hin].
      * apply in_app_iff in Hin. destruct Hin as [Hin | [Heq | []]].
        -- destruct (marked (ctx w) i); [destruct Hin | destruct Hin as [Heq | []]; discriminate].
        -- injection Heq as <- _ _ _. eauto.
      * destruct (drain_loop_trace _ _ _ _ _ _ _ _ Hrec) as (_ & _ & Hidx & _).
        destruct (Hidx _ _ _ _ Hin) as [Hle _].
        destruct (IH _ _ _ _ _ _ _ Hrec _ _ _ _ Hin) as (s' & Hs' & Hr').
        destruct (drained_frame i s data count w Hs) as (_ & _ & Hf).
        destruct (Hf j) as [Hp Hm]; [lia |].
        exists s'. unfold marked in *. rewrite <- Hm, <- Hp. auto.
    + destruct Hin as [Heq | Hin]; [discriminate |].
      exact (IH _ _ _ _ _ _ _ Hrec _ _ _ _ Hin).
Qed.

(** The loop changes the state of a driver only by draining it. *)
Lemma drain_loop_untouched (n : nat) :
  forall (i : nat) (count nbEvents data : Z) (w : world) acts st w',
    drain_loop n i count nbEvents data w = (acts, Returns st w') ->
    forall j, (forall d c r, ~ In (CallReadEvents j d c r) acts) ->
      mSensors (ctx w') j = mSensors (ctx w) j.
Proof.
  induction n as [| n IH]; intros i count nbEvents data w acts st w' Hrun j Hno.
  - simpl in Hrun. injection Hrun as _ _ <-. reflexivity.
  - cbn [drain_loop] in Hrun.
    destruct (count =? 0); [injection Hrun as _ _ <-; reflexivity |].
    unfold bind in Hrun. pose proof (drain_round_cases i count nbEvents data w) as Hcase.
    destruct (mSensors (ctx w) i) as [s |] eqn:Hs; [| rewrite Hcase in Hrun; discriminate].
    cbv zeta in Hcase.
    destruct (marked (ctx w) i || SensorBase.hasPendingEvents (vptr s) (self s));
      rewrite Hcase in Hrun; clear Hcase;
      match type of Hrun with
      | context [drain_loop n (S i) ?c ?e ?d ?w1] =>
          destruct (drain_loop n (S i) c e d w1) as [t2 o2] eqn:Hrec
      end;
      (destruct o2 as [st2 w2 | |]; try discriminate);
      injection Hrun as <- _ <-.
    + assert (Hji : j <> i).
      { intros ->. eapply Hno. apply in_or_app. left. apply in_or_app. right.
        left. reflexivity. }
      rewrite (IH _ _ _ _ _ _ _ _ Hrec j).
      * destruct (drained_frame i s data count w Hs) as (_ & _ & Hf).
        destruct (Hf j) as [_ Hm]; [lia | exact Hm].
      * intros d c r Hin. eapply Hno. apply in_or_app. right. eassumption.
    + apply (IH _ _ _ _ _ _ _ _ Hrec j).
      intros d c r Hin. eapply Hno. right. eassumption.
Qed.

(** When the loop ends with capacity left, no entry of its rounds is left
    marked readable. *)
Lemma drain_loop_marks (n : nat) :
  forall (i : nat) (count nbEvents data : Z) (w : world) acts count' nb' data' w',
    drain_loop n i count nbEvents data w = (acts, Returns (count', nb', data') w') ->
    count' <> 0 ->
    forall j, (i <= j < i + n)%nat -> marked (ctx w') j = false.
Proof.
  induction n as [| n IH];
    intros i count nbEvents data w acts count' nb' data' w' Hrun Hleft j Hj; [lia |].
  cbn [drain_loop] in Hrun.
  destruct (Z.eqb_spec count 0) as [Hz | Hnz]; [injection Hrun as _ <- _ _; contradiction |].
  unfold bind in Hrun. pose proof (drain_round_cases i count nbEvents data w) as Hcase.
  destruct (mSensors (ctx w) i) as [s |] eqn:Hs; [| rewrite Hcase in Hrun; discriminate].
  cbv zeta in Hcase.
  destruct (marked (ctx w) i || SensorBase.hasPendingEvents (vptr s) (self s)) eqn:Hready;
    rewrite Hcase in Hrun; clear Hcase;
    match type of Hrun with
    | context [drain_loop n (S i) ?c ?e ?d ?w1] =>
        destruct (drain_loop n (S i) c e d w1) as [t2 o2] eqn:Hrec;
          assert (Hi : marked (ctx w1) i = false)
    end;
    try (destruct o2 as [[[c2 nb2] d2] w2 | |]; try discriminate;
         injection Hrun as _ <- _ _ <-;
         destruct (Nat.eq_dec j i) as [-> | Hne];
         [ destruct (drain_loop_frame _ _ _ _ _ _ _ _ _ Hrec) as (_ & _ & Hf);
           destruct (Hf i) as [Hp _]; [lia |];
           unfold marked in *; rewrite Hp; exact Hi
         | apply (IH _ _ _ _ _ _ _ _ _ _ Hrec Hleft); lia ]).
  - unfold marked, drained. simpl. rewrite Nat.eqb_refl. reflexivity.
  - apply orb_false_elim in Hready. tauto.
Qed.

(** ** The wait, the state it leaves *)

Lemma wait_loop_state (answers : list poll_answer) (nbEvents : Z) :
  forall (w : world) acts r w',
    wait_loop answers nbEvents w = (acts, Returns r w') ->
    same_registration (ctx w) (ctx w') /\
    set_poll_answers [] (kern w') = set_poll_answers [] (kern w) /\
    reads acts = 0%nat /\
    (forall e, r = inl e -> ctx w' = ctx w).
Proof.
  induction answers as [| ans rest IH]; intros w acts r w' Hrun; [discriminate |].
  destruct ans as [revs | err]; cbn [wait_loop] in Hrun; unfold pop_answer in Hrun;
    revert Hrun; run_m.
  - intro Hrun. injection Hrun as <- <- <-. simpl.
    split; [apply same_registration_store_revents |]. repeat split. discriminate.
  - destruct (err =? EINTR).
    + destruct (wait_loop rest nbEvents _) as [t o'] eqn:Hrec.
      destruct o' as [r' w'' | |]; try discriminate.
      intro Hrun. injection Hrun as <- <- <-.
      apply IH in Hrec. simpl in Hrec. destruct Hrec as (Hreg & Hk & Hr & Hc).
      simpl. auto.
    + intro Hrun. injection Hrun as <- <- <-. simpl.
      split; [apply same_registration_refl |]. repeat split.
Qed.

(** A wait that is interrupted [k] times and then fails: the negated error
    is to be returned, and only the answers of [poll] were used up. *)
Lemma wait_loop_failed (k : nat) (err : Z) (rest : list poll_answer) (nbEvents : Z) :
  err <> EINTR ->
  forall w : world,
    wait_loop (interrupted_then_failed k err rest) nbEvents w
    = (failed_wait_actions k (if nbEvents =? 0 then -1 else 0),
       Returns (inl (- err)) (with_kern (set_poll_answers rest (kern w)) w)).
Proof.
  intro Herr. apply Z.eqb_neq in Herr.
  induction k as [| k IH]; intro w.
  - unfold interrupted_then_failed. cbn [repeat app wait_loop]. unfold pop_answer. run_m.
    rewrite Herr. reflexivity.
  - change (interrupted_then_failed (S k) err rest)
      with (PollFail EINTR :: interrupted_then_failed k err rest).
    cbn [wait_loop]. unfold pop_answer. run_m.
    change (EINTR =? EINTR) with true. cbv iota.
    rewrite IH. reflexivity.
Qed.

(** ** The wake pipe, the state it leaves *)

Lemma drain_wake_state (w : world) :
  exists acts w',
    drain_wake w = (acts, Returns tt w') /\
    same_registration (ctx w) (ctx w') /\
    (forall j, j <> Z.to_nat wake -> mPollFds (ctx w') j = mPollFds (ctx w) j) /\
    marked (ctx w') (Z.to_nat wake) = false /\
    reads acts = (if marked (ctx w) (Z.to_nat wake) then 1 else 0)%nat /\
    poll_answers (kern w') = poll_answers (kern w) /\
    pipe_bytes (kern w')
    = (if marked (ctx w) (Z.to_nat wake)
          && (fd (mPollFds (ctx w) (Z.to_nat wake)) =? pipe_rd (kern w))
       then tl (pipe_bytes (kern w)) else pipe_bytes (kern w)) /\
    (In (ALOGE "unknown message on wake queue (0x%02x)") acts ->
     hd (uninit_msg (kern w)) (pipe_bytes (kern w)) <> WAKE_MESSAGE \/
     fd (mPollFds (ctx w) (Z.to_nat wake)) <> pipe_rd (kern w)).
Proof.
  change (Z.to_nat wake) with 2%nat.
  unfold drain_wake, marked. change (Z.to_nat wake) with 2%nat. run_m.
  destruct (negb (Z.land (revents (mPollFds (ctx w) 2)) POLLIN =? 0)) eqn:Hm.
  - unfold sys_read. run_m.
    destruct (pipe_bytes (kern w)) as [| b bytes] eqn:Hbytes;
      [| destruct (Z.eqb_spec (fd (mPollFds (ctx w) 2)) (pipe_rd (kern w)))];
      cbv beta iota zeta;
      match goal with
      | |- context [ALOGE_IF (?r <? 0) _] =>
          destruct (r <? 0); unfold ALOGE_IF at 1; run_m
      end;
      match goal with
      | |- context [ALOGE_IF (negb (?m =? WAKE_MESSAGE)) _] =>
          destruct (Z.eqb_spec m WAKE_MESSAGE); unfold ALOGE_IF; run_m
      end;
      do 2 eexists; (split; [reflexivity |]); cbn [ctx with_ctx with_kern kern];
      (split; [apply same_registration_set_revents |]);
      (split; [intros j Hj; apply Nat.eqb_neq in Hj; simpl; rewrite Hj; reflexivity |]);
      (split; [reflexivity |]); (split; [reflexivity |]); (split; [reflexivity |]);
      (split; [simpl; rewrite ?Hbytes;
               try match goal with
                   | |- context [?a =? ?b] => destruct (a =? b)
                   end; reflexivity |]);
      simpl; rewrite ?Hbytes; simpl; intros Hin;
      repeat match goal with
             | H : _ \/ _ |- _ => destruct H
             | H : False |- _ => destruct H
             | H : _ = ALOGE _ |- _ => discriminate H
             end; auto.
  - exists [], w. split; [reflexivity |]. split; [apply same_registration_refl |].
    split; [auto |]. split; [exact Hm |]. repeat split. intros [].
Qed.

(** ** More on lists of actions *)

Lemma reads_app (l1 l2 : list action) : reads (l1 ++ l2) = (reads l1 + reads l2)%nat.
Proof.
  induction l1 as [| a l1 IH]; [reflexivity |].
  destruct a; simpl; rewrite IH; reflexivity.
Qed.

Lemma read_indices_app (l1 l2 : list action) :
  read_indices (l1 ++ l2) = read_indices l1 ++ read_indices l2.
Proof.
  induction l1 as [| a l1 IH]; [reflexivity |].
  destruct a; simpl; rewrite IH; reflexivity.
Qed.

Lemma source_calls_no_reads (acts : list action) :
  Forall (fun a => is_source_call a = true) acts ->
  reads acts = 0%nat /\ Forall (fun a => a <> ALOGE "unknown message on wake queue (0x%02x)") acts.
Proof.
  induction 1 as [| a acts Ha _ [IH1 IH2]]; [split; [reflexivity | constructor] |].
  destruct a; simpl in *; try discriminate; split; try assumption;
    constructor; try assumption; discriminate.
Qed.

Lemma no_delegate_no_read_indices (acts : list action) :
  Forall (fun a => is_delegate_call a = false) acts -> read_indices acts = [].
Proof.
  induction 1 as [| a acts Ha _ IH]; [reflexivity |].
  destruct a; simpl in *; try assumption. discriminate.
Qed.

Lemma wait_actions_reads (k : nat) (timeout : Z) (revs : list Z) :
  reads (wait_actions k timeout revs) = 0%nat /\
  ~ In (ALOGE "unknown message on wake queue (0x%02x)") (wait_actions k timeout revs).
Proof.
  unfold wait_actions. induction k as [| k [IH1 IH2]]; simpl.
  - split; [reflexivity |]. intros [H | []]. discriminate.
  - split; [exact IH1 |]. intros [H | [H | H]]; [discriminate | discriminate | exact (IH2 H)].
Qed.

Lemma failed_wait_actions_quiet (k : nat) (timeout : Z) :
  Forall (fun a => is_delegate_call a = false) (failed_wait_actions k timeout) /\
  reads (failed_wait_actions k timeout) = 0%nat /\
  successful_waits (failed_wait_actions k timeout) = 0%nat /\
  wake_writes (failed_wait_actions k timeout) = [].
Proof.
  unfold failed_wait_actions. generalize (S k) as n.
  induction n as [| n (IH1 & IH2 & IH3 & IH4)]; simpl.
  - repeat split; constructor.
  - split; [repeat constructor; exact IH1 | auto].
Qed.

(** ** What [poll] stores *)

Lemma marked_store_revents (revs : list Z) (c : sensors_poll_context_t D E) (i : nat) :
  (i < Z.to_nat numFds)%nat ->
  marked (store_revents revs c) i = negb (Z.land (nth i revs 0) POLLIN =? 0).
Proof.
  intro Hi. change (Z.to_nat numFds) with 3%nat in Hi.
  destruct i as [| [| [| i]]]; [reflexivity | reflexivity | reflexivity | lia].
Qed.

Lemma fd_store_revents (revs : list Z) (c : sensors_poll_context_t D E) (i : nat) :
  fd (mPollFds (store_revents revs c) i) = fd (mPollFds c i).
Proof.
  destruct (same_registration_store_revents c revs) as (_ & Hp & _). apply Hp.
Qed.

(** ** More on the drain loop *)

(** The loop calls [hasPendingEvents] and [readEvents] and nothing else. *)
Lemma drain_loop_only_source_calls (n : nat) :
  forall (i : nat) (count nbEvents data : Z) (w : world) acts o,
    drain_loop n i count nbEvents data w = (acts, o) ->
    Forall (fun a => is_source_call a = true) acts.
Proof.
  induction n as [| n IH]; intros i count nbEvents data w acts o Hrun.
  - simpl in Hrun. injection Hrun as <- _. constructor.
  - cbn [drain_loop] in Hrun.
    destruct (count =? 0); [injection Hrun as <- _; constructor |].
    unfold bind in Hrun. pose proof (drain_round_cases i count nbEvents data w) as Hcase.
    destruct (mSensors (ctx w) i) as [s |] eqn:Hs;
      [| rewrite Hcase in Hrun; injection Hrun as <- _; constructor].
    cbv zeta in Hcase.
    destruct (marked (ctx w) i || SensorBase.hasPendingEvents (vptr s) (self s));
      rewrite Hcase in Hrun; clear Hcase;
      match type of Hrun with
      | context [drain_loop n (S i) ?c ?e ?d ?w1] =>
          destruct (drain_loop n (S i) c e d w1) as [t2 o2] eqn:Hrec
      end;
      injection Hrun as <- _; apply IH in Hrec.
    + apply Forall_app. split; [| assumption].
      destruct (marked (ctx w) i); repeat constructor.
    + constructor; [reflexivity | assumption].
Qed.

(** The locals of the loop move together: what [nbEvents] gains, [count]
    loses and [data] advances by. *)
Lemma drain_loop_locals (n : nat) :
  forall (i : nat) (count nbEvents data : Z) (w : world) acts count' nb' data' w',
    drain_loop n i count nbEvents data w = (acts, Returns (count', nb', data') w') ->
    count' = count - collected acts /\
    nb' = nbEvents + collected acts /\
    data' = data + collected acts.
Proof.
  induction n as [| n IH];
    intros i count nbEvents data w acts count' nb' data' w' Hrun.
  - simpl in Hrun. injection Hrun as <- <- <- <- _. simpl. lia.
  - cbn [drain_loop] in Hrun.
    destruct (count =? 0); [injection Hrun as <- <- <- <- _; simpl; lia |].
    unfold bind in Hrun. pose proof (drain_round_cases i count nbEvents data w) as Hcase.
    destruct (mSensors (ctx w) i) as [s |] eqn:Hs; [| rewrite Hcase in Hrun; discriminate].
    cbv zeta in Hcase.
    destruct (marked (ctx w) i || SensorBase.hasPendingEvents (vptr s) (self s));
      rewrite Hcase in Hrun; clear Hcase;
      match type of Hrun with
      | context [drain_loop n (S i) ?c ?e ?d ?w1] =>
          destruct (drain_loop n (S i) c e d w1) as [t2 o2] eqn:Hrec
      end;
      (destruct o2 as [[[c2 nb2] d2] w2 | |]; try discriminate);
      injection Hrun as <- <- <- <- _; apply IH in Hrec; destruct Hrec as (-> & -> & ->).
    + rewrite !collected_app. destruct (marked (ctx w) i); simpl; lia.
    + simpl. lia.
Qed.

(** With the drivers of its rounds constructed, the loop makes no call
    through a null pointer: it returns. *)
Lemma drain_loop_live (n : nat) :
  forall (i : nat) (count nbEvents data : Z) (w : world),
    (forall j, (i <= j < i + n)%nat -> mSensors (ctx w) j <> None) ->
    exists acts st w', drain_loop n i count nbEvents data w = (acts, Returns st w').
Proof.
  induction n as [| n IH]; intros i count nbEvents data w Hlive.
  - simpl. unfold ret. eauto.
  - cbn [drain_loop].
    destruct (count =? 0); [unfold ret; eauto |].
    unfold bind. pose proof (drain_round_cases i count nbEvents data w) as Hcase.
    destruct (mSensors (ctx w) i) as [s |] eqn:Hs;
      [| exfalso; apply (Hlive i); [lia | assumption]].
    cbv zeta in Hcase.
    destruct (marked (ctx w) i || SensorBase.hasPendingEvents (vptr s) (self s));
      rewrite Hcase; clear Hcase.
    + match goal with
      | |- context [drain_loop n (S i) ?c ?e ?d ?w1] =>
          destruct (IH (S i) c e d w1) as (t2 & st2 & w2 & Hrec)
      end.
      * intros j Hj. destruct (drained_frame i s data count w Hs) as (_ & _ & Hf).
        destruct (Hf j) as [_ Hm]; [lia |]. rewrite Hm. apply Hlive. lia.
      * rewrite Hrec. eauto.
    + destruct (IH (S i) count nbEvents data w) as (t2 & st2 & w2 & Hrec).
      * intros j Hj. apply Hlive. lia.
      * rewrite Hrec. eauto.
Qed.

(** The loop drains the slots in rising order, each at most once. *)
Lemma drain_loop_read_indices (n : nat) :
  forall (i : nat) (count nbEvents data : Z) (w : world) acts o,
    drain_loop n i count nbEvents data w = (acts, o) ->
    StronglySorted lt (read_indices acts) /\
    Forall (fun j => (i <= j < i + n)%nat) (read_indices acts).
Proof.
  induction n as [| n IH]; intros i count nbEvents data w acts o Hrun.
  - simpl in Hrun. injection Hrun as <- _. split; constructor.
  - cbn [drain_loop] in Hrun.
    destruct (count =? 0); [injection Hrun as <- _; split; constructor |].
    unfold bind in Hrun. pose proof (drain_round_cases i count nbEvents data w) as Hcase.
    destruct (mSensors (ctx w) i) as [s |] eqn:Hs;
      [| rewrite Hcase in Hrun; injection Hrun as <- _; split; constructor].
    cbv zeta in Hcase.
    destruct (marked (ctx w) i || SensorBase.hasPendingEvents (vptr s) (self s));
      rewrite Hcase in Hrun; clear Hcase;
      match type of Hrun with
      | context [drain_loop n (S i) ?c ?e ?d ?w1] =>
          destruct (drain_loop n (S i) c e d w1) as [t2 o2] eqn:Hrec
      end;
      injection Hrun as <- _; apply IH in Hrec; destruct Hrec as [Hsorted Hrange].
    + assert (Hidx : read_indices
                       (((if marked (ctx w) i then [] else [CallHasPendingEvents i])
                         ++ [CallReadEvents i data count
                               (fst (fst (SensorBase.readEvents (vptr s) (self s) count)))])
                        ++ t2) = i :: read_indices t2).
      { rewrite !read_indices_app. destruct (marked (ctx w) i); reflexivity. }
      rewrite Hidx. split.
      * constructor; [assumption |].
        eapply Forall_impl; [| exact Hrange]. simpl. intros j Hj. lia.
      * constructor; [lia |].
        eapply Forall_impl; [| exact Hrange]. simpl. intros j Hj. lia.
    + simpl. split; [assumption |].
      eapply Forall_impl; [| exact Hrange]. simpl. intros j Hj. lia.
Qed.

(** ** [pollEvents] when [poll] succeeds *)

Lemma pollEvents_ready_parts (count : Z) (w : world) (k : nat) (revs : list Z)
    (rest : list poll_answer) acts o :
  poll_answers (kern w) = interrupted_then_ready k revs rest ->
  pollEvents count w = (acts, o) ->
  exists t2 o2,
    drain_loop (Z.to_nat numSensorDrivers) 0 count 0 0
      (with_ctx (store_revents revs (ctx w)) (with_kern (set_poll_answers rest (kern w)) w))
    = (t2, o2) /\
    match o2 with
    | Returns (_, nbEvents, _) w2 =>
        exists t3 w3,
          drain_wake w2 = (t3, Returns tt w3) /\
          acts = wait_actions k (-1) revs ++ t2 ++ t3 /\ o = Returns nbEvents w3
    | NullDeref => acts = wait_actions k (-1) revs ++ t2 /\ o = NullDeref
    | Blocked => acts = wait_actions k (-1) revs ++ t2 /\ o = Blocked
    end.
Proof.
  intros Hwait Hrun. apply pollEvents_parts in Hrun.
  destruct Hrun as (t1 & o1 & Hw & Hrest).
  rewrite Hwait, wait_loop_ready in Hw. injection Hw as <- <-. exact Hrest.
Qed.

(** ** Construction and teardown *)

(** X1.  The constructor stores the two pointers it was given; it registers
    every constructed driver with its own descriptor, interest [POLLIN] and
    no readiness mark, and the read end of the wake pipe likewise in the
    last entry; it keeps the write end; and it leaves the entry of a driver
    that was not constructed as the memory held it, with one log line for
    it. *)
Theorem constructor_registers (raw : sensors_poll_context_t D E)
    (hub fusion : option (sensor D E)) (result : Z) (wakeFds : Z * Z) :
  let c := snd (new_sensors_poll_context_t raw hub fusion result wakeFds) in
  let t := fst (new_sensors_poll_context_t raw hub fusion result wakeFds) in
  let entry (p : option (sensor D E)) (i : nat) :=
    match p with
    | Some s => {| fd := SensorBase.getFd (vptr s) (self s); events := POLLIN; revents := 0 |}
    | None => mPollFds raw i
    end in
  mSensors c (Z.to_nat accelgyromag) = hub /\
  mSensors c (Z.to_nat akm) = fusion /\
  mPollFds c (Z.to_nat accelgyromag) = entry hub (Z.to_nat accelgyromag) /\
  mPollFds c (Z.to_nat akm) = entry fusion (Z.to_nat akm) /\
  mPollFds c (Z.to_nat wake) = {| fd := fst wakeFds; events := POLLIN; revents := 0 |} /\
  mWritePipeFd c = snd wakeFds /\
  (In (ALOGE "out of memory: new failed for HubSensor") t <-> hub = None) /\
  (In (ALOGE "out of memory: new failed for AkmSensor") t <-> fusion = None) /\
  (In (ALOGE "error creating wake pipe (%s)") t <-> result < 0).
Proof.
  destruct hub as [h |], fusion as [f |]; cbv zeta;
    (repeat (split; [reflexivity |]));
    unfold new_sensors_poll_context_t, construct_slot; simpl;
    destruct (Z.ltb_spec result 0); simpl;
    repeat split; intros;
    repeat match goal with
           | H : _ \/ _ |- _ => destruct H
           | H : False |- _ => destruct H
           | H : _ = ALOGE _ |- _ => discriminate H
           | H : Some _ = None |- _ => discriminate H
           end; auto; lia.
Qed.

Lemma delete_same_registration (c c' : sensors_poll_context_t D E) :
  same_registration c c' ->
  delete_sensors_poll_context_t c' = delete_sensors_poll_context_t c.
Proof.
  intros (Hw & Hp & Hs). unfold delete_sensors_poll_context_t.
  rewrite Hw. destruct (Hp (Z.to_nat wake)) as [-> _].
  change (Z.to_nat numSensorDrivers) with 2%nat. cbn [seq flat_map].
  pose proof (Hs 0%nat) as H0. pose proof (Hs 1%nat) as H1.
  destruct (mSensors c 0), (mSensors c' 0), (mSensors c 1), (mSensors c' 1);
    try contradiction; reflexivity.
Qed.

(** X2.  [poll__close] on a context that has the registration the
    constructor made (as it has after any calls of the member functions)
    returns [0], deletes exactly the drivers that were constructed, each
    once, and closes exactly the two ends of the wake pipe, each once; on
    the null pointer it returns [0] and does nothing. *)
Theorem close_releases_construction (raw c' : sensors_poll_context_t D E)
    (hub fusion : option (sensor D E)) (result : Z) (wakeFds : Z * Z)
    (Hreg : same_registration
              (snd (new_sensors_poll_context_t raw hub fusion result wakeFds)) c') :
  poll__close (Some c')
  = ((match hub with Some _ => [DeleteSensor (Z.to_nat accelgyromag)] | None => [] end)
     ++ (match fusion with Some _ => [DeleteSensor (Z.to_nat akm)] | None => [] end)
     ++ [SysClose (fst wakeFds); SysClose (snd wakeFds)], 0) /\
  poll__close (@None (sensors_poll_context_t D E)) = ([], 0).
Proof.
  split; [| reflexivity].
  unfold poll__close. rewrite (delete_same_registration _ _ Hreg).
  destruct hub, fusion; reflexivity.
Qed.

(** ** The control operations on a constructed driver *)

(** X3.  With the driver that owns the id constructed, [setDelay] makes one
    call, the owner's [setDelay] with the id and the interval, and returns
    what it returned; it hands nothing to [write], makes no wait, and leaves
    the other driver, the entries of [mPollFds], the caller's array and the
    kernel as they were.  [batch] does the same. *)
Theorem setDelay_routes_to_owner (w : world) (handle ns : Z) (s : sensor D E)
    (Hdrv : 0 <= handleToDriver handle)
    (Hlive : mSensors (ctx w) (Z.to_nat (handleToDriver handle)) = Some s) :
  let i := Z.to_nat (handleToDriver handle) in
  let r := SensorBase.setDelay (vptr s) (self s) handle ns in
  exists w',
    setDelay handle ns w = ([CallSetDelay i handle ns], Returns (fst r) w') /\
    (forall flags timeout,
       batch handle flags ns timeout w = ([CallSetDelay i handle ns], Returns (fst r) w')) /\
    mSensors (ctx w') i = Some {| vptr := vptr s; self := snd r |} /\
    (forall j, j <> i -> mSensors (ctx w') j = mSensors (ctx w) j) /\
    mPollFds (ctx w') = mPollFds (ctx w) /\
    mWritePipeFd (ctx w') = mWritePipeFd (ctx w) /\
    events_buf w' = events_buf w /\ kern w' = kern w.
Proof.
  cbv zeta. unfold batch, setDelay. cbv zeta.
  replace (handleToDriver handle <? 0) with false by (symmetry; apply Z.ltb_ge; assumption).
  run_m. rewrite Hlive.
  destruct (SensorBase.setDelay (vptr s) (self s) handle ns) as [err d]. simpl.
  eexists. split; [reflexivity |]. split; [reflexivity |]. simpl.
  rewrite Nat.eqb_refl. split; [reflexivity |]. split.
  - intros j Hj. apply Nat.eqb_neq in Hj. rewrite Hj. reflexivity.
  - repeat split.
Qed.

(** What [activate] does when the driver that owns the id is constructed. *)
Lemma activate_run (w : world) (handle enabled : Z) (s : sensor D E) :
  0 <= handleToDriver handle ->
  mSensors (ctx w) (Z.to_nat (handleToDriver handle)) = Some s ->
  let i := Z.to_nat (handleToDriver handle) in
  let r := SensorBase.setEnable (vptr s) (self s) handle enabled in
  let w0 := with_ctx (set_sensor i (Some {| vptr := vptr s; self := snd r |}) (ctx w)) w in
  activate handle enabled w
  = if (handle =? ID_M) && negb (enabled =? 0) && (fst r =? 0)
    then
      if write_lands w
      then ([CallSetEnable i handle enabled; SysWrite (mWritePipeFd (ctx w)) WAKE_MESSAGE 1],
            Returns (fst r)
              (with_kern (set_pipe_bytes (pipe_bytes (kern w) ++ [WAKE_MESSAGE]) (kern w)) w0))
      else ([CallSetEnable i handle enabled; SysWrite (mWritePipeFd (ctx w)) WAKE_MESSAGE (-1);
             ALOGE "error sending wake message (%s)"],
            Returns (fst r) w0)
    else ([CallSetEnable i handle enabled], Returns (fst r) w0).
Proof.
  intros Hdrv Hlive. cbv zeta. unfold activate. cbv zeta.
  replace (handleToDriver handle <? 0) with false by (symmetry; apply Z.ltb_ge; assumption).
  unfold bind at 1. unfold call_setEnable. run_m. rewrite Hlive.
  destruct (SensorBase.setEnable (vptr s) (self s) handle enabled) as [err d]. simpl.
  destruct ((handle =? ID_M) && negb (enabled =? 0) && (err =? 0)); simpl; [| reflexivity].
  unfold sys_write, write_lands. run_m. simpl.
  destruct ((mWritePipeFd (ctx w) =? pipe_wr (kern w))
            && Nat.ltb (length (pipe_bytes (kern w))) (pipe_capacity (kern w)));
    reflexivity.
Qed.

(** X4.  With the driver that owns the id constructed, [activate] calls
    the owner's [setEnable] with the id and the flag before anything else
    and calls no other method of a driver; it makes no wait, touches no
    entry of [mPollFds] (so no readiness mark), and leaves the other driver,
    the caller's array and the answers of [poll] as they were. *)
Theorem activate_routes_to_owner (w : world) (handle enabled : Z) (s : sensor D E)
    (Hdrv : 0 <= handleToDriver handle)
    (Hlive : mSensors (ctx w) (Z.to_nat (handleToDriver handle)) = Some s) :
  let i := Z.to_nat (handleToDriver handle) in
  let r := SensorBase.setEnable (vptr s) (self s) handle enabled in
  exists tail w',
    activate handle enabled w = (CallSetEnable i handle enabled :: tail, Returns (fst r) w') /\
    Forall (fun a => is_delegate_call a = false) tail /\
    Forall (fun a => is_wait a = false) tail /\
    mSensors (ctx w') i = Some {| vptr := vptr s; self := snd r |} /\
    (forall j, j <> i -> mSensors (ctx w') j = mSensors (ctx w) j) /\
    mPollFds (ctx w') = mPollFds (ctx w) /\
    mWritePipeFd (ctx w') = mWritePipeFd (ctx w) /\
    events_buf w' = events_buf w /\
    poll_answers (kern w') = poll_answers (kern w).
Proof.
  cbv zeta. rewrite (activate_run w handle enabled s Hdrv Hlive). cbv zeta.
  destruct ((handle =? ID_M) && negb (enabled =? 0)
            && (fst (SensorBase.setEnable (vptr s) (self s) handle enabled) =? 0));
    [destruct (write_lands w) |];
    do 2 eexists; (split; [reflexivity |]);
    (split; [repeat constructor |]); (split; [repeat constructor |]);
    simpl; rewrite Nat.eqb_refl; (split; [reflexivity |]);
    (split; [intros j Hj; apply Nat.eqb_neq in Hj; rewrite Hj; reflexivity |]);
    repeat split.
Qed.

(** ** [pollEvents], the wait *)

(** X5.  When [poll] fails with an error other than [EINTR] (after any
    number of interruptions), [pollEvents] returns the negated error
    whatever the capacity is and whether or not the drivers were
    constructed; no method of a driver is called, the wake pipe is not
    read, no wait succeeded, and the context, the caller's array and the
    pipe are as they were. *)
Theorem pollEvents_poll_failure (count : Z) (w : world) (k : nat) (err : Z)
    (rest : list poll_answer)
    (Herr : err <> EINTR)
    (Hwait : poll_answers (kern w) = interrupted_then_failed k err rest) :
  exists acts w',
    pollEvents count w = (acts, Returns (- err) w') /\
    Forall (fun a => is_delegate_call a = false) acts /\
    reads acts = 0%nat /\
    successful_waits acts = 0%nat /\
    ctx w' = ctx w /\
    events_buf w' = events_buf w /\
    pipe_bytes (kern w') = pipe_bytes (kern w) /\
    poll_answers (kern w') = rest.
Proof.
  unfold pollEvents. run_m. rewrite Hwait, (wait_loop_failed k err rest 0 Herr).
  destruct (failed_wait_actions_quiet k (-1)) as (Hd & Hr & Hs & _).
  do 2 eexists. split; [reflexivity |]. rewrite app_nil_r. simpl.
  repeat split; assumption.
Qed.

(** X6.  An interrupted [poll] is retried and nothing shows of it but the
    call and its log line: a call of [pollEvents] whose first [poll] is
    interrupted does what the call does from the state in which that answer
    is used up, with the same outcome. *)
Theorem pollEvents_retries_interrupt (count : Z) (w : world) (rest : list poll_answer)
    (Hwait : poll_answers (kern w) = PollFail EINTR :: rest) :
  pollEvents count w
  = (SysPoll numFds (-1) (Some (-1)) :: ALOGE "poll() failed (%s)"
       :: fst (pollEvents count (with_kern (set_poll_answers rest (kern w)) w)),
     snd (pollEvents count (with_kern (set_poll_answers rest (kern w)) w))).
Proof.
  unfold pollEvents. run_m. rewrite Hwait. cbn [wait_loop]. unfold pop_answer. run_m.
  change (EINTR =? EINTR) with true. cbv iota. cbn [kern with_kern poll_answers set_poll_answers].
  destruct (wait_loop rest 0 _) as [t1 o1].
  destruct o1 as [[e | u] w1 | |]; try reflexivity.
  destruct (drain_loop _ _ _ _ _ w1) as [t2 o2].
  destruct o2 as [[[c2 nb2] d2] w2 | |]; try reflexivity.
  destruct (drain_wake w2) as [t3 o3].
  destruct o3 as [u3 w3 | |]; reflexivity.
Qed.

(** ** [pollEvents], the drivers *)

(** X7.  When [poll] succeeds, [pollEvents] drains a driver only if [poll]
    marked its entry readable or the driver holds buffered events; and a
    driver that is not drained has, when the call returns, the state it had
    before. *)
Theorem pollEvents_drains_only_ready (count : Z) (w : world) (k : nat) (revs : list Z)
    (rest : list poll_answer) acts o
    (Hwait : poll_answers (kern w) = interrupted_then_ready k revs rest)
    (Hrun : pollEvents count w = (acts, o)) :
  (forall j d c r, In (CallReadEvents j d c r) acts ->
     exists s, mSensors (ctx w) j = Some s /\ source_ready revs j s = true) /\
  (forall n w' j, o = Returns n w' -> ~ In j (read_indices acts) ->
     mSensors (ctx w') j = mSensors (ctx w) j).
Proof.
  destruct (pollEvents_ready_parts _ _ _ _ _ _ _ Hwait Hrun) as (t2 & o2 & Hdrain & Hrest).
  pose proof (wait_actions_no_delegate k (-1) revs) as Hd1.
  assert (Hin2 : forall t3, Forall (fun a => is_delegate_call a = false) t3 ->
            forall j d c r, In (CallReadEvents j d c r) (wait_actions k (-1) revs ++ t2 ++ t3) ->
            In (CallReadEvents j d c r) t2).
  { intros t3 Hd3 j d c r Hin. apply in_app_iff in Hin. destruct Hin as [Hin | Hin].
    - rewrite Forall_forall in Hd1. apply Hd1 in Hin. discriminate.
    - apply in_app_iff in Hin. destruct Hin as [Hin | Hin]; [assumption |].
      rewrite Forall_forall in Hd3. apply Hd3 in Hin. discriminate. }
  assert (Hready : forall j d c r, In (CallReadEvents j d c r) t2 ->
            exists s, mSensors (ctx w) j = Some s /\ source_ready revs j s = true).
  { intros j d c r Hin.
    destruct (drain_loop_reads_ready _ _ _ _ _ _ _ _ Hdrain _ _ _ _ Hin) as (s & Hs & Hr).
    destruct (drain_loop_read_indices _ _ _ _ _ _ _ _ Hdrain) as [_ Hrange].
    assert (Hj : (j < 2)%nat).
    { rewrite Forall_forall in Hrange. apply (Hrange j).
      clear - Hin. induction t2 as [| a t2 IH]; [destruct Hin |].
      destruct Hin as [-> | Hin]; [left; reflexivity |].
      destruct a; simpl; auto. }
    exists s. split; [exact Hs |].
    unfold source_ready. cbn [ctx with_ctx] in Hr.
    rewrite marked_store_revents in Hr by (change (Z.to_nat numFds) with 3%nat; lia).
    exact Hr. }
  destruct o2 as [[[c2 nb2] d2] w2 | |].
  - destruct Hrest as (t3 & w3 & Hwake & -> & ->).
    destruct (drain_wake_spec w2) as (t3' & w3' & Hwake' & _ & Hsens3 & _ & Hd3 & _).
    rewrite Hwake in Hwake'. injection Hwake' as <- <-.
    split.
    + intros j d c r Hin. eapply Hready. eapply Hin2; eassumption.
    + intros n w' j Hret Hno. injection Hret as _ <-.
      rewrite Hsens3.
      rewrite (drain_loop_untouched _ _ _ _ _ _ _ _ _ Hdrain j); [reflexivity |].
      intros d c r Hin. apply Hno.
      rewrite !read_indices_app. apply in_or_app. right. apply in_or_app. left.
      clear - Hin. induction t2 as [| a t2 IH]; [destruct Hin |].
      destruct Hin as [-> | Hin]; [left; reflexivity |].
      destruct a; simpl; auto.
  - destruct Hrest as [-> ->]. split; [| discriminate].
    intros j d c r Hin. eapply Hready. apply (Hin2 [] (Forall_nil _)).
    rewrite app_nil_r. exact Hin.
  - destruct Hrest as [-> ->]. split; [| discriminate].
    intros j d c r Hin. eapply Hready. apply (Hin2 [] (Forall_nil _)).
    rewrite app_nil_r. exact Hin.
Qed.

(** X8.  In every call of [pollEvents] the drivers are drained in rising
    order of their slots, each at most once: the hub before the fusion
    driver, and never more than [numSensorDrivers] calls of [readEvents]. *)
Theorem pollEvents_drains_each_once (count : Z) (w : world) acts o
    (Hrun : pollEvents count w = (acts, o)) :
  StronglySorted lt (read_indices acts) /\
  Forall (fun j => (j < Z.to_nat numSensorDrivers)%nat) (read_indices acts) /\
  (length (read_indices acts) <= Z.to_nat numSensorDrivers)%nat.
Proof.
  assert (Hgoal : StronglySorted lt (read_indices acts) /\
                  Forall (fun j => (j < Z.to_nat numSensorDrivers)%nat) (read_indices acts)).
  { apply pollEvents_parts in Hrun.
    destruct Hrun as (t1 & o1 & Hwait & Hrest).
    destruct (wait_loop_trace _ _ count _ _ _ Hwait) as (Hd1 & _ & Ho1).
    pose proof (no_delegate_no_read_indices _ Hd1) as H1.
    destruct o1 as [[e | u] w1 | |];
      try (destruct Hrest as [-> _]; rewrite H1; split; constructor).
    destruct Hrest as (t2 & o2 & Hdrain & Hrest).
    destruct (drain_loop_read_indices _ _ _ _ _ _ _ _ Hdrain) as [Hsorted Hrange].
    assert (H12 : read_indices (t1 ++ t2) = read_indices t2)
      by (rewrite read_indices_app, H1; reflexivity).
    assert (Hrange' : Forall (fun j => (j < Z.to_nat numSensorDrivers)%nat) (read_indices t2)).
    { eapply Forall_impl; [| exact Hrange]. simpl. intros j Hj. lia. }
    destruct o2 as [[[c2 nb2] d2] w2 | |];
      try (destruct Hrest as [-> _]; rewrite H12; split; assumption).
    destruct Hrest as (t3 & w3 & Hwake & -> & _).
    destruct (drain_wake_spec w2) as (t3' & w3' & Hwake' & _ & _ & _ & Hd3 & _).
    rewrite Hwake in Hwake'. injection Hwake' as <- _.
    rewrite !read_indices_app, H1, (no_delegate_no_read_indices _ Hd3), app_nil_r.
    split; assumption. }
  destruct Hgoal as [Hsorted Hrange]. split; [assumption |]. split; [assumption |].
  change (Z.to_nat numSensorDrivers) with 2%nat in *.
  destruct (read_indices acts) as [| a [| b [| c l]]]; simpl; try lia.
  exfalso.
  inversion Hsorted as [| ? ? Hs1 Ha]; subst.
  inversion Hs1 as [| ? ? Hs2 Hb]; subst.
  inversion Ha as [| ? ? Hab Ha']; subst. inversion Hb as [| ? ? Hbc _]; subst.
  inversion Hrange as [| ? ? _ Hr1]; subst. inversion Hr1 as [| ? ? _ Hr2]; subst.
  inversion Hr2 as [| ? ? Hc _]; subst. lia.
Qed.

(** X9.  When [poll] succeeds and the call returns fewer records than the
    capacity, no entry of [mPollFds] is left marked readable: every driver
    was either drained and its mark cleared, or was not marked, and the mark
    of the wake pipe is cleared. *)
Theorem pollEvents_clears_marks (count : Z) (w : world) (k : nat) (revs : list Z)
    (rest : list poll_answer) acts n w'
    (Hwait : poll_answers (kern w) = interrupted_then_ready k revs rest)
    (Hrun : pollEvents count w = (acts, Returns n w'))
    (Hleft : n <> count) :
  forall j, (j < Z.to_nat numFds)%nat -> marked (ctx w') j = false.
Proof.
  destruct (pollEvents_ready_parts _ _ _ _ _ _ _ Hwait Hrun) as (t2 & o2 & Hdrain & Hrest).
  destruct o2 as [[[c2 nb2] d2] w2 | |]; try (destruct Hrest as [_ Hret]; discriminate).
  destruct Hrest as (t3 & w3 & Hwake & _ & Hret). injection Hret as <- <-.
  destruct (drain_loop_locals _ _ _ _ _ _ _ _ _ _ _ Hdrain) as (Hc2 & Hnb2 & _).
  assert (Hc : c2 <> 0) by lia.
  pose proof (drain_loop_marks _ _ _ _ _ _ _ _ _ _ _ Hdrain Hc) as Hmarks.
  destruct (drain_wake_state w2) as (t3' & w3' & Hwake' & _ & Hothers & Hmw & _).
  rewrite Hwake in Hwake'. injection Hwake' as _ <-.
  intros j Hj. change (Z.to_nat numFds) with 3%nat in Hj.
  change (Z.to_nat wake) with 2%nat in *.
  destruct (Nat.eq_dec j 2) as [-> | Hne]; [exact Hmw |].
  unfold marked. rewrite (Hothers j Hne). apply Hmarks.
  change (Z.to_nat numSensorDrivers) with 2%nat. lia.
Qed.

(** ** [pollEvents], the wake pipe *)

(** What a returning call of [pollEvents] does to the wake pipe when
    [poll] succeeds. *)
Lemma pollEvents_wake_state (count : Z) (w : world) (k : nat) (revs : list Z)
    (rest : list poll_answer) acts n w' :
  poll_answers (kern w) = interrupted_then_ready k revs rest ->
  pollEvents count w = (acts, Returns n w') ->
  let woken := negb (Z.land (nth (Z.to_nat wake) revs 0) POLLIN =? 0) in
  let rd := fd (mPollFds (ctx w) (Z.to_nat wake)) =? pipe_rd (kern w) in
  reads acts = (if woken then 1 else 0)%nat /\
  pipe_bytes (kern w') = (if woken && rd then tl (pipe_bytes (kern w)) else pipe_bytes (kern w)) /\
  poll_answers (kern w') = rest /\
  (In (ALOGE "unknown message on wake queue (0x%02x)") acts ->
   hd (uninit_msg (kern w)) (pipe_bytes (kern w)) <> WAKE_MESSAGE \/ rd = false).
Proof.
  intros Hwait Hrun. cbv zeta.
  destruct (pollEvents_ready_parts _ _ _ _ _ _ _ Hwait Hrun) as (t2 & o2 & Hdrain & Hrest).
  destruct o2 as [[[c2 nb2] d2] w2 | |]; try (destruct Hrest as [_ Hret]; discriminate).
  destruct Hrest as (t3 & w3 & Hwake & -> & Hret). injection Hret as _ <-.
  destruct (drain_loop_frame _ _ _ _ _ _ _ _ _ Hdrain) as (Hk2 & _ & Hf2).
  destruct (Hf2 (Z.to_nat wake)) as [Hp2 _];
    [right; change (Z.to_nat wake) with 2%nat; change (Z.to_nat numSensorDrivers) with 2%nat; lia |].
  cbn [ctx with_ctx kern with_kern] in Hk2, Hp2.
  destruct (source_calls_no_reads _ (drain_loop_only_source_calls _ _ _ _ _ _ _ _ Hdrain))
    as [Hr2 Hlog2].
  destruct (wait_actions_reads k (-1) revs) as [Hr1 Hlog1].
  destruct (drain_wake_state w2) as (t3' & w3' & Hwake' & _ & _ & _ & Hr3 & Ha3 & Hb3 & Hlog3).
  rewrite Hwake in Hwake'. injection Hwake' as <- <-.
  assert (Hm : marked (ctx w2) (Z.to_nat wake)
               = negb (Z.land (nth (Z.to_nat wake) revs 0) POLLIN =? 0)).
  { unfold marked. rewrite Hp2. apply (marked_store_revents revs (ctx w) (Z.to_nat wake)).
    change (Z.to_nat wake) with 2%nat. change (Z.to_nat numFds) with 3%nat. lia. }
  assert (Hfd : fd (mPollFds (ctx w2) (Z.to_nat wake)) = fd (mPollFds (ctx w) (Z.to_nat wake))).
  { rewrite Hp2. apply fd_store_revents. }
  rewrite Hm, Hfd, Hk2 in *. simpl in Hr3, Ha3, Hb3, Hlog3.
  split; [rewrite !reads_app, Hr1, Hr2, Hr3; reflexivity |].
  split; [exact Hb3 |]. split; [exact Ha3 |].
  intro Hin. apply in_app_iff in Hin. destruct Hin as [Hin | Hin]; [contradiction |].
  apply in_app_iff in Hin. destruct Hin as [Hin | Hin].
  - rewrite Forall_forall in Hlog2. exfalso. exact (Hlog2 _ Hin eq_refl).
  - destruct (Hlog3 Hin) as [H | H]; [left; exact H | right].
    apply Z.eqb_neq. exact H.
Qed.

(** X10.  When [poll] succeeds and the call returns, [pollEvents] reads the
    wake pipe once if [poll] marked its entry readable and not at all
    otherwise; at most the first byte queued in the pipe is taken, and it is
    taken when the entry was marked and holds the read end. *)
Theorem pollEvents_reads_one_wake_byte (count : Z) (w : world) (k : nat) (revs : list Z)
    (rest : list poll_answer) acts n w'
    (Hwait : poll_answers (kern w) = interrupted_then_ready k revs rest)
    (Hrun : pollEvents count w = (acts, Returns n w')) :
  let woken := negb (Z.land (nth (Z.to_nat wake) revs 0) POLLIN =? 0) in
  let rd := fd (mPollFds (ctx w) (Z.to_nat wake)) =? pipe_rd (kern w) in
  reads acts = (if woken then 1 else 0)%nat /\
  pipe_bytes (kern w') = (if woken && rd then tl (pipe_bytes (kern w)) else pipe_bytes (kern w)) /\
  poll_answers (kern w') = rest.
Proof.
  destruct (pollEvents_wake_state _ _ _ _ _ _ _ _ Hwait Hrun) as (Hr & Hb & Ha & _).
  cbv zeta. auto.
Qed.

(** X11.  The wake byte goes round: on an empty pipe with room, a call of
    [activate] that enables [ID_M] with success queues ['W'], and the next
    call of [pollEvents] that [poll] wakes on the pipe reads exactly that
    byte, leaves the pipe empty again and logs no unknown message. *)
Theorem wake_byte_round_trip (w w1 w2 : world) (enabled count n : Z) (s : sensor D E)
    (k : nat) (revs : list Z) (rest : list poll_answer) acts1 acts2
    (Hdrv : 0 <= handleToDriver ID_M)
    (Hlive : mSensors (ctx w) (Z.to_nat (handleToDriver ID_M)) = Some s)
    (Hon : enabled <> 0)
    (Hok : fst (SensorBase.setEnable (vptr s) (self s) ID_M enabled) = 0)
    (Hempty : pipe_bytes (kern w) = [])
    (Hlands : write_lands w = true)
    (Hrd : fd (mPollFds (ctx w) (Z.to_nat wake)) = pipe_rd (kern w))
    (Hact : activate ID_M enabled w = (acts1, Returns 0 w1))
    (Hwait : poll_answers (kern w1) = interrupted_then_ready k revs rest)
    (Hwoken : negb (Z.land (nth (Z.to_nat wake) revs 0) POLLIN =? 0) = true)
    (Hpoll : pollEvents count w1 = (acts2, Returns n w2)) :
  wake_writes acts1 = [(mWritePipeFd (ctx w), WAKE_MESSAGE)] /\
  pipe_bytes (kern w1) = [WAKE_MESSAGE] /\
  reads acts2 = 1%nat /\
  pipe_bytes (kern w2) = [] /\
  ~ In (ALOGE "unknown message on wake queue (0x%02x)") acts2.
Proof.
  rewrite (activate_run w ID_M enabled s Hdrv Hlive) in Hact. cbv zeta in Hact.
  rewrite Hok, Z.eqb_refl, Hlands in Hact.
  replace (enabled =? 0) with false in Hact by (symmetry; apply Z.eqb_neq; exact Hon).
  simpl in Hact. injection Hact as <- <-.
  destruct (pollEvents_wake_state _ _ _ _ _ _ _ _ Hwait Hpoll) as (Hr & Hb & _ & Hlog).
  cbv zeta in Hr, Hb, Hlog. rewrite Hwoken in *.
  cbn [ctx with_ctx kern with_kern mPollFds set_sensor pipe_bytes set_pipe_bytes pipe_rd
       uninit_msg] in Hb, Hlog.
  rewrite Hempty, Hrd, Z.eqb_refl in *. simpl in Hb, Hlog.
  split; [reflexivity |]. split; [reflexivity |].
  split; [exact Hr |]. split; [exact Hb |].
  intro Hin. destruct (Hlog Hin) as [H | H]; [apply H; reflexivity | discriminate].
Qed.

(** ** [pollEvents] on constructed drivers *)

(** X12.  When [poll] succeeds and neither driver is ready (woken by the
    wake pipe, say), [pollEvents] returns [0] whatever the capacity is,
    calls no [readEvents], and leaves the drivers and the caller's array as
    they were. *)
Theorem pollEvents_nothing_ready (count : Z) (w : world) (k : nat) (revs : list Z)
    (rest : list poll_answer) (hub fus : sensor D E)
    (Hwait : poll_answers (kern w) = interrupted_then_ready k revs rest)
    (Hhub : mSensors (ctx w) (Z.to_nat accelgyromag) = Some hub)
    (Hfus : mSensors (ctx w) (Z.to_nat akm) = Some fus)
    (Hidle0 : source_ready revs (Z.to_nat accelgyromag) hub = false)
    (Hidle1 : source_ready revs (Z.to_nat akm) fus = false) :
  exists acts w',
    pollEvents count w = (acts, Returns 0 w') /\
    read_indices acts = [] /\
    mSensors (ctx w') = mSensors (ctx w) /\
    events_buf w' = events_buf w.
Proof.
  change (Z.to_nat accelgyromag) with 0%nat in *.
  change (Z.to_nat akm) with 1%nat in *.
  unfold pollEvents. run_m. rewrite Hwait, wait_loop_ready.
  change (if 0 =? 0 then -1 else 0) with (-1).
  change (Z.to_nat numSensorDrivers) with 2%nat. cbn [drain_loop].
  set (w1 := with_ctx (store_revents revs (ctx w))
               (with_kern (set_poll_answers rest (kern w)) w)).
  pose proof (no_delegate_no_read_indices _ (wait_actions_no_delegate k (-1) revs)) as H1.
  destruct (count =? 0) eqn:Hc.
  - unfold ret. cbv beta iota.
    destruct (drain_wake_spec w1) as (t3 & w3 & Hwake & Hbuf & Hsens & _ & Hd3 & _).
    rewrite Hwake. do 2 eexists. split; [reflexivity |].
    split; [| split; [exact Hsens | exact Hbuf]].
    rewrite !read_indices_app, H1, (no_delegate_no_read_indices _ Hd3). reflexivity.
  - assert (Hround0 := drain_round_idle 0 count 0 0 w1 hub Hhub Hidle0).
    unfold bind at 1. rewrite Hround0. clear Hround0. cbv beta iota. rewrite Hc.
    assert (Hround1 := drain_round_idle 1 count 0 0 w1 fus Hfus Hidle1).
    unfold bind at 1. rewrite Hround1. clear Hround1. unfold ret. cbv beta iota.
    destruct (drain_wake_spec w1) as (t3 & w3 & Hwake & Hbuf & Hsens & _ & Hd3 & _).
    rewrite Hwake. do 2 eexists. split; [reflexivity |].
    split; [| split; [exact Hsens | exact Hbuf]].
    rewrite !read_indices_app, H1, (no_delegate_no_read_indices _ Hd3). reflexivity.
Qed.

(** X13.  On a context with both drivers constructed no member function
    calls through a null pointer: [activate], [setDelay], [batch], [flush]
    return, and [pollEvents] returns or stays in [poll]. *)
Theorem constructed_context_no_null_call (w : world)
    (Hlive : forall j, (j < Z.to_nat numSensorDrivers)%nat -> mSensors (ctx w) j <> None) :
  (forall handle enabled, exists acts r w', activate handle enabled w = (acts, Returns r w')) /\
  (forall handle ns, exists acts r w', setDelay handle ns w = (acts, Returns r w')) /\
  (forall handle flags ns timeout,
     exists acts r w', batch handle flags ns timeout w = (acts, Returns r w')) /\
  (forall handle, exists acts r w', flush handle w = (acts, Returns r w')) /\
  (forall count, snd (pollEvents count w) <> NullDeref).
Proof.
  change (Z.to_nat numSensorDrivers) with 2%nat in Hlive.
  assert (Howner : forall handle, 0 <= handleToDriver handle ->
            exists s, mSensors (ctx w) (Z.to_nat (handleToDriver handle)) = Some s).
  { intros handle Hdrv.
    assert (Hj : (Z.to_nat (handleToDriver handle) < 2)%nat).
    { destruct (handleToDriver_range handle) as [H | [H | H]]; rewrite H in *;
        unfold accelgyromag, akm, EINVAL in *; simpl in *; lia. }
    specialize (Hlive _ Hj).
    destruct (mSensors (ctx w) (Z.to_nat (handleToDriver handle))) as [s |]; [eauto | contradiction]. }
  assert (Hdelay : forall handle ns, exists acts r w', setDelay handle ns w = (acts, Returns r w')).
  { intros handle ns. destruct (Z.ltb_spec (handleToDriver handle) 0) as [Hneg | Hpos].
    - unfold setDelay. cbv zeta.
      replace (handleToDriver handle <? 0) with true by (symmetry; apply Z.ltb_lt; assumption).
      unfold ret. eauto.
    - destruct (Howner handle Hpos) as [s Hs].
      unfold setDelay. cbv zeta.
      replace (handleToDriver handle <? 0) with false by (symmetry; apply Z.ltb_ge; assumption).
      run_m. rewrite Hs.
      destruct (SensorBase.setDelay (vptr s) (self s) handle ns) as [err d]. simpl. eauto. }
  split; [| split; [exact Hdelay | split; [intros; apply Hdelay | split]]].
  - intros handle enabled. destruct (Z.ltb_spec (handleToDriver handle) 0) as [Hneg | Hpos].
    + unfold activate. cbv zeta.
      replace (handleToDriver handle <? 0) with true by (symmetry; apply Z.ltb_lt; assumption).
      unfold ret. eauto.
    + destruct (Howner handle Hpos) as [s Hs].
      rewrite (activate_run w handle enabled s Hpos Hs). cbv zeta.
      destruct ((handle =? ID_M) && negb (enabled =? 0)
                && (fst (SensorBase.setEnable (vptr s) (self s) handle enabled) =? 0));
        [destruct (write_lands w) |]; eauto.
  - intro handle. unfold flush. run_m.
    assert (H0 : (Z.to_nat accelgyromag < 2)%nat) by (simpl; lia).
    specialize (Hlive _ H0).
    destruct (mSensors (ctx w) (Z.to_nat accelgyromag)) as [s |]; [| contradiction].
    destruct (SensorBase.flush (vptr s) (self s) handle) as [err d]. simpl. eauto.
  - intro count. destruct (pollEvents count w) as [acts o] eqn:Hrun. simpl.
    intros ->. apply pollEvents_parts in Hrun.
    destruct Hrun as (t1 & o1 & Hwait & Hrest).
    destruct (wait_loop_trace _ _ count _ _ _ Hwait) as (_ & _ & Ho1).
    destruct o1 as [[e | u] w1 | |]; try (destruct Hrest as [_ Hret]; discriminate);
      [| destruct Ho1].
    destruct Ho1 as (_ & Hsens & _).
    destruct Hrest as (t2 & o2 & Hdrain & Hrest).
    destruct (drain_loop_live (Z.to_nat numSensorDrivers) 0 count 0 0 w1)
      as (t2' & st2 & w2 & Hlive2).
    + intros j Hj. rewrite Hsens. apply Hlive. change (Z.to_nat numSensorDrivers) with 2%nat in Hj. lia.
    + rewrite Hlive2 in Hdrain. injection Hdrain as <- <-.
      destruct st2 as [[c2 nb2] d2].
      destruct Hrest as (t3 & w3 & _ & _ & Hret). discriminate.
Qed.

(** ** What every call leaves in place *)

(** X14.  A member function that returns leaves the registration of the
    context as it was: the write end of the wake pipe, the descriptor and
    the interest of every entry of [mPollFds], and which slots of [mSensors]
    hold a driver, of which class. *)
Theorem member_functions_keep_registration (w w' : world) acts (r : Z)
    (Hrun : (exists handle enabled, activate handle enabled w = (acts, Returns r w')) \/
            (exists handle ns, setDelay handle ns w = (acts, Returns r w')) \/
            (exists handle flags ns timeout,
               batch handle flags ns timeout w = (acts, Returns r w')) \/
            (exists handle, flush handle w = (acts, Returns r w')) \/
            (exists count, pollEvents count w = (acts, Returns r w'))) :
  same_registration (ctx w) (ctx w').
Proof.
  assert (Hdelay : forall handle ns, setDelay handle ns w = (acts, Returns r w') ->
                   same_registration (ctx w) (ctx w')).
  { intros handle ns H. unfold setDelay in H. cbv zeta in H.
    destruct (handleToDriver handle <? 0);
      [injection H as _ _ <-; apply same_registration_refl |].
    revert H. run_m.
    destruct (mSensors (ctx w) (Z.to_nat (handleToDriver handle))) as [s |] eqn:Hs;
      [| discriminate].
    destruct (SensorBase.setDelay (vptr s) (self s) handle ns) as [err d]. simpl.
    intro H. injection H as _ _ <-. simpl. apply same_registration_set_self. assumption. }
  destruct Hrun as [(handle & enabled & H) | [(handle & ns & H) | [(handle & flags & ns & timeout & H)
                   | [(handle & H) | (count & H)]]]].
  - destruct (Z.ltb_spec (handleToDriver handle) 0) as [Hneg | Hpos].
    + unfold activate in H. cbv zeta in H.
      replace (handleToDriver handle <? 0) with true in H
        by (symmetry; apply Z.ltb_lt; assumption).
      injection H as _ _ <-. apply same_registration_refl.
    + destruct (mSensors (ctx w) (Z.to_nat (handleToDriver handle))) as [s |] eqn:Hs.
      * rewrite (activate_run w handle enabled s Hpos Hs) in H. cbv zeta in H.
        destruct ((handle =? ID_M) && negb (enabled =? 0)
                  && (fst (SensorBase.setEnable (vptr s) (self s) handle enabled) =? 0));
          [destruct (write_lands w) |];
          injection H as _ _ <-; simpl; apply same_registration_set_self; assumption.
      * unfold activate in H. cbv zeta in H.
        replace (handleToDriver handle <? 0) with false in H
          by (symmetry; apply Z.ltb_ge; assumption).
        revert H. run_m. rewrite Hs. discriminate.
  - exact (Hdelay _ _ H).
  - exact (Hdelay _ _ H).
  - revert H. unfold flush. run_m.
    destruct (mSensors (ctx w) (Z.to_nat accelgyromag)) as [s |] eqn:Hs; [| discriminate].
    destruct (SensorBase.flush (vptr s) (self s) handle) as [err d]. simpl.
    intro H. injection H as _ _ <-. simpl. apply same_registration_set_self. assumption.
  - apply pollEvents_parts in H. destruct H as (t1 & o1 & Hwait & Hrest).
    destruct o1 as [[e | u] w1 | |]; try (destruct Hrest as [_ Hret]; discriminate).
    + destruct Hrest as [_ Hret]. injection Hret as _ <-.
      destruct (wait_loop_state _ _ _ _ _ _ Hwait) as (Hreg & _). exact Hreg.
    + destruct (wait_loop_state _ _ _ _ _ _ Hwait) as (Hreg1 & _).
      destruct Hrest as (t2 & o2 & Hdrain & Hrest).
      destruct o2 as [[[c2 nb2] d2] w2 | |]; try (destruct Hrest as [_ Hret]; discriminate).
      destruct Hrest as (t3 & w3 & Hwake & _ & Hret). injection Hret as _ <-.
      destruct (drain_loop_frame _ _ _ _ _ _ _ _ _ Hdrain) as (_ & Hreg2 & _).
      destruct (drain_wake_state w2) as (t3' & w3' & Hwake' & Hreg3 & _).
      rewrite Hwake in Hwake'. injection Hwake' as _ <-.
      eapply same_registration_trans; [exact Hreg1 |].
      eapply same_registration_trans; [exact Hreg2 | exact Hreg3].
Qed.

(** ** One wait and one pass *)







End Properties.

(** * The properties on the sample configuration *)

(** [ID_M] is routed to the fusion driver, [ID_P] to the hub, and [42] is
    not recognized. *)
Lemma handleToDriver_partition_witness :
  ~ In (@ID_M Sample.ids) (@hub_handles Sample.ids) /\
  handleToDriver (ids := Sample.ids) 9 = akm /\
  handleToDriver (ids := Sample.ids) 3 = accelgyromag /\
  handleToDriver (ids := Sample.ids) 42 = - EINVAL.
Proof.
  assert (Hlabels : ~ In (@ID_M Sample.ids) (@hub_handles Sample.ids)).
  { simpl. intuition discriminate. }
  split; [exact Hlabels |].
  destruct (handleToDriver_partition (ids := Sample.ids) Hlabels) as (H1 & _ & H3 & H4 & _).
  split; [exact H1 |]. split.
  - apply H3. simpl. tauto.
  - apply H4. simpl. intuition discriminate.
Defined.

Lemma unrecognized_handle_rejected_witness :
  ~ In 42 (@recognized_handles Sample.ids) /\
  activate (ids := Sample.ids) 42 1 Sample.idle = ([], Returns (- EINVAL) Sample.idle) /\
  setDelay (ids := Sample.ids) 42 20000000 Sample.idle = ([], Returns (- EINVAL) Sample.idle).
Proof.
  assert (Hunknown : ~ In 42 (@recognized_handles Sample.ids)).
  { simpl. intuition discriminate. }
  split; [exact Hunknown |].
  exact (unrecognized_handle_rejected (ids := Sample.ids) Sample.idle 42 1 20000000 Hunknown).
Defined.

(** [flush] of [ID_M], which the fusion driver owns, goes to the hub. *)
Lemma flush_routes_to_hub_witness :
  mSensors (ctx Sample.idle) (Z.to_nat accelgyromag) = Some (Sample.hub [10; 11; 12]) /\
  exists w',
    flush 9 Sample.idle = ([CallFlush 0 9], Returns 109 w') /\
    mSensors (ctx w') 0 = Some (Sample.hub [10; 11; 12]) /\
    mSensors (ctx w') 1 = Some (Sample.fusion [20; 21]).
Proof.
  split; [reflexivity |].
  destruct (flush_routes_to_hub Sample.idle 9 (Sample.hub [10; 11; 12]) eq_refl)
    as (w' & Hrun & Hhub & Hfus & _).
  exists w'. split; [exact Hrun |]. split; [exact Hhub | exact Hfus].
Defined.

(** Enabling [ID_M] with a fusion driver that accepts: one byte ['W']. *)
Lemma activate_wake_byte_witness :
  (0 <= handleToDriver (ids := Sample.ids) 9 ->
   mSensors (ctx Sample.idle) (Z.to_nat (handleToDriver (ids := Sample.ids) 9)) <> None) /\
  exists acts w',
    activate (ids := Sample.ids) 9 1 Sample.idle = (acts, Returns 0 w') /\
    wake_writes acts = [(6, WAKE_MESSAGE)] /\
    pipe_bytes (kern w') = [WAKE_MESSAGE].
Proof.
  assert (Hlive : 0 <= handleToDriver (ids := Sample.ids) 9 ->
                  mSensors (ctx Sample.idle)
                    (Z.to_nat (handleToDriver (ids := Sample.ids) 9)) <> None).
  { intros _. simpl. discriminate. }
  split; [exact Hlive |].
  destruct (activate_wake_byte (ids := Sample.ids) Sample.idle 9 1 Hlive)
    as (acts & r & w' & Hrun & _ & Hr & Hwrites & Hpipe).
  assert (Hzero : r = 0).
  { apply (Hr (Sample.fusion [20; 21])); [apply Z.leb_le; reflexivity | reflexivity]. }
  subst r. exists acts, w'. split; [exact Hrun |]. split; [exact Hwrites | exact Hpipe].
Defined.

(** [activate] of [ID_M] when [new(std::nothrow) AkmSensor()] failed. *)
Lemma absent_source_null_deref_witness :
  0 <= handleToDriver (ids := Sample.ids) 9 /\
  mSensors (ctx (Sample.no_fusion []))
    (Z.to_nat (handleToDriver (ids := Sample.ids) 9)) = None /\
  activate (ids := Sample.ids) 9 1 (Sample.no_fusion []) = ([], NullDeref) /\
  setDelay (ids := Sample.ids) 9 20000000 (Sample.no_fusion []) = ([], NullDeref) /\
  drain_round 1 7 3 3 (Sample.no_fusion []) = ([], NullDeref).
Proof.
  assert (Hdrv : 0 <= handleToDriver (ids := Sample.ids) 9) by (apply Z.leb_le; reflexivity).
  split; [exact Hdrv |]. split; [reflexivity |].
  destruct (absent_source_null_deref (ids := Sample.ids) (Sample.no_fusion []) 9 Hdrv eq_refl)
    as (Hact & Hdelay & Hdrain).
  split; [exact (Hact 1) |]. split; [exact (Hdelay 20000000) |].
  assert (Hseven : 7 <> 0) by discriminate.
  exact (proj1 (Hdrain O 7 3 3 Hseven)).
Defined.




(** The hub holds five records, the capacity is three. *)
Lemma pollEvents_within_capacity_witness :
  0 <= 3 /\
  (forall i s c, mSensors (ctx Sample.hub_five) i = Some s -> 0 < c ->
     fst (fst (SensorBase.readEvents (vptr s) (self s) c)) <= c) /\
  exists acts w',
    pollEvents 3 Sample.hub_five = (acts, Returns 3 w') /\
    collected acts <= 3 /\
    (forall pre a post, acts = pre ++ a :: post -> is_source_call a = true ->
       3 - collected pre <> 0) /\
    (forall j, j < 0 \/ 3 <= j -> events_buf w' j = None).
Proof.
  assert (Hcap : 0 <= 3) by lia.
  assert (Hstore : forall i s c, mSensors (ctx Sample.hub_five) i = Some s -> 0 < c ->
                     stores_what_it_returns s c).
  { intros i s c Hs Hc. unfold stores_what_it_returns.
    destruct i as [| [| i]]; simpl in Hs; try discriminate;
      injection Hs as <-; simpl;
      (destruct (Z.ltb_spec c 1); [lia |]); simpl; rewrite ?length_firstn; cbn [length]; lia. }
  assert (Hbound : forall i s c, mSensors (ctx Sample.hub_five) i = Some s -> 0 < c ->
                     fst (fst (SensorBase.readEvents (vptr s) (self s) c)) <= c).
  { intros i s c Hs Hc. destruct (Hstore i s c Hs Hc) as [[_ Hle] _]. exact Hle. }
  split; [exact Hcap |]. split; [exact Hbound |].
  assert (Hrun : pollEvents 3 Sample.hub_five
                 = (fst (pollEvents 3 Sample.hub_five),
                    Returns 3 (match snd (pollEvents 3 Sample.hub_five) with
                               | Returns _ w' => w'
                               | _ => Sample.hub_five
                               end)))
    by (vm_compute; reflexivity).
  destruct (pollEvents_within_capacity 3 Sample.hub_five _ _
              Hcap Hbound Hrun) as (Hle & _ & Hconsult & Harray).
  eexists. eexists. split; [exact Hrun |]. split; [exact Hle |].
  split; [exact Hconsult |].
  intros j Hj. exact (Harray Hstore _ _ eq_refl j Hj).
Defined.

(** Capacity zero, [poll] interrupted once and then woken by the pipe. *)
Lemma pollEvents_zero_capacity_witness :
  poll_answers (kern Sample.woken) = interrupted_then_ready 1 [0; 0; 1] [] /\
  exists acts w',
    pollEvents 0 Sample.woken = (acts, Returns 0 w') /\
    successful_waits acts = 1%nat /\
    Forall (fun a => is_delegate_call a = false) acts.
Proof.
  split; [reflexivity |].
  destruct (pollEvents_zero_capacity Sample.woken 1 [0; 0; 1] [] eq_refl)
    as (acts & w' & Hrun & Hone & Hnone & _).
  exists acts, w'. split; [exact Hrun |]. split; [exact Hone | exact Hnone].
Defined.

(** Both drivers readable, capacity ten: the three records of the hub are
    followed by the two of the fusion driver. *)
Lemma pollEvents_hub_records_first_witness :
  poll_answers (kern Sample.both_readable) = interrupted_then_ready 0 [1; 1; 0] [] /\
  mSensors (ctx Sample.both_readable) (Z.to_nat accelgyromag) = Some (Sample.hub [10; 11; 12]) /\
  mSensors (ctx Sample.both_readable) (Z.to_nat akm) = Some (Sample.fusion [20; 21]) /\
  source_ready [1; 1; 0] (Z.to_nat accelgyromag) (Sample.hub [10; 11; 12]) = true /\
  source_ready [1; 1; 0] (Z.to_nat akm) (Sample.fusion [20; 21]) = true /\
  10 <> 0 /\
  SensorBase.readEvents (vptr (Sample.hub [10; 11; 12])) [10; 11; 12] 10
    = ((3, [10; 11; 12]), []) /\
  3 = Z.of_nat (length [10; 11; 12]) /\
  10 - 3 <> 0 /\
  SensorBase.readEvents (vptr (Sample.fusion [20; 21])) [20; 21] (10 - 3)
    = ((2, [20; 21]), []) /\
  exists acts w',
    pollEvents 10 Sample.both_readable = (acts, Returns 5 w') /\
    events_buf w' 0 = Some 10 /\ events_buf w' 1 = Some 11 /\ events_buf w' 2 = Some 12 /\
    events_buf w' 3 = Some 20 /\ events_buf w' 4 = Some 21.
Proof.
  assert (Hten : 10 <> 0) by discriminate.
  assert (Hleft : 10 - 3 <> 0) by discriminate.
  repeat (split; [first [reflexivity | assumption] |]).
  destruct (pollEvents_hub_records_first Sample.both_readable 10
              0 [1; 1; 0] [] (Sample.hub [10; 11; 12]) (Sample.fusion [20; 21])
              3 2 [10; 11; 12] [20; 21] [] []
              eq_refl eq_refl eq_refl eq_refl eq_refl Hten eq_refl eq_refl Hleft eq_refl)
    as (acts & w' & Hrun & _ & _ & Hhub & Hfus & _).
  exists acts, w'. split; [exact Hrun |].
  split; [exact (Hhub 0%nat 10 eq_refl) |].
  split; [exact (Hhub 1%nat 11 eq_refl) |].
  split; [exact (Hhub 2%nat 12 eq_refl) |].
  split; [exact (Hfus 0%nat 20 eq_refl) | exact (Hfus 1%nat 21 eq_refl)].
Defined.

(** * The calls on the sample configuration, run *)

(** Enabling [ID_M] when the fusion driver refuses: its error comes back
    and nothing is handed to [write]. *)
Example activate_refused :
  fst (activate (ids := Sample.ids) 9 1 Sample.fusion_refuses) = [CallSetEnable 1 9 1] /\
  returned (activate (ids := Sample.ids) 9 1 Sample.fusion_refuses) = Some (-5).
Proof. split; reflexivity. Qed.

(** Disabling [ID_M]: the driver is called, nothing is handed to [write]. *)
Example activate_disable :
  fst (activate (ids := Sample.ids) 9 0 Sample.idle) = [CallSetEnable 1 9 0] /\
  returned (activate (ids := Sample.ids) 9 0 Sample.idle) = Some 0.
Proof. split; reflexivity. Qed.

(** Enabling [ID_M]: the driver is called and the wake byte written. *)
Example activate_enable :
  fst (activate (ids := Sample.ids) 9 1 Sample.idle)
  = [CallSetEnable 1 9 1; SysWrite 6 WAKE_MESSAGE 1] /\
  returned (activate (ids := Sample.ids) 9 1 Sample.idle) = Some 0.
Proof. split; reflexivity. Qed.

(** The hub holds three records and is readable, the fusion driver holds
    none, the capacity is ten: three records come back, the fusion driver is
    asked for buffered events and not drained. *)
Example pollEvents_hub_only :
  fst (pollEvents 10 Sample.hub_readable)
  = [SysPoll 3 (-1) (Some (-1)); ALOGE "poll() failed (%s)"; SysPoll 3 (-1) (Some 1);
     CallReadEvents 0 0 10 3; CallHasPendingEvents 1] /\
  returned (pollEvents 10 Sample.hub_readable) = Some 3.
Proof. split; reflexivity. Qed.

(** The hub holds five records, the capacity is three: three records come
    back and the fusion driver is not consulted. *)
Example pollEvents_capacity_reached :
  fst (pollEvents 3 Sample.hub_five)
  = [SysPoll 3 (-1) (Some 1); CallReadEvents 0 0 3 3] /\
  returned (pollEvents 3 Sample.hub_five) = Some 3.
Proof. split; reflexivity. Qed.

(** Woken by the wake pipe alone: no record, the byte is read. *)
Example pollEvents_woken :
  fst (pollEvents 10 Sample.woken)
  = [SysPoll 3 (-1) (Some (-1)); ALOGE "poll() failed (%s)"; SysPoll 3 (-1) (Some 1);
     CallHasPendingEvents 0; CallHasPendingEvents 1; SysRead 5 (-1);
     ALOGE "error reading from wake pipe (%s)";
     ALOGE "unknown message on wake queue (0x%02x)"] /\
  returned (pollEvents 10 Sample.woken) = Some 0.
Proof. split; reflexivity. Qed.

(** [poll] fails with an error other than [EINTR]: the negated error comes
    back and no driver is called, whatever the capacity. *)
Example pollEvents_poll_fails :
  fst (pollEvents 0 Sample.poll_fails)
  = [SysPoll 3 (-1) (Some (-1)); ALOGE "poll() failed (%s)"] /\
  returned (pollEvents 0 Sample.poll_fails) = Some (-9) /\
  returned (pollEvents 10 Sample.poll_fails) = Some (-9).
Proof. repeat split; reflexivity. Qed.

(** [poll] has no answer: the call stays in its first wait. *)
Example pollEvents_blocks :
  pollEvents 10 Sample.idle = ([SysPoll 3 (-1) None], Blocked).
Proof. reflexivity. Qed.

(** With the fusion driver not constructed, a call of [pollEvents] that
    reaches its slot calls through the null pointer. *)
Example pollEvents_null_slot :
  pollEvents 10 (Sample.no_fusion [PollReady [1; 0; 0]])
  = ([SysPoll 3 (-1) (Some 1); CallReadEvents 0 0 10 3], NullDeref).
Proof. reflexivity. Qed.

(** The constructor leaves the entry of [mPollFds] of a driver that was not
    constructed as the memory held it, and [poll] is given all [numFds]
    entries. *)
Example constructor_leaves_entry_unset :
  mPollFds (ctx (Sample.no_fusion [])) (Z.to_nat akm) = mPollFds Sample.raw (Z.to_nat akm) /\
  fst (new_sensors_poll_context_t Sample.raw (Some (Sample.hub [])) None 0 (5, 6))
  = [ALOGE "out of memory: new failed for AkmSensor"; SysPipe 0; SysFcntl 5; SysFcntl 6].
Proof. split; reflexivity. Qed.

(** A hub driver whose [readEvents] returns an error: the capacity and the
    position in the array are moved by the negative count, so the fusion
    driver is given one entry more than the caller's capacity and stores
    its first record before [data[0]]. *)
Example pollEvents_negative_count :
  fst (pollEvents 2 Sample.hub_errs)
  = [SysPoll 3 (-1) (Some 2); CallReadEvents 0 0 2 (-1); CallReadEvents 1 (-1) 3 3] /\
  returned (pollEvents 2 Sample.hub_errs) = Some 2 /\
  option_map (fun w => events_buf w (-1)) (final (pollEvents 2 Sample.hub_errs))
  = Some (Some 20).
Proof. repeat split; reflexivity. Qed.

(** * The further properties on the sample configuration *)

(** Teardown of a context on which [poll] left a mark. *)
Lemma close_releases_construction_witness :
  same_registration Sample.constructed (set_revents 0 1 Sample.constructed) /\
  poll__close (Some (set_revents 0 1 Sample.constructed))
  = ([DeleteSensor 0; DeleteSensor 1; SysClose 5; SysClose 6], 0).
Proof.
  assert (Hreg : same_registration Sample.constructed (set_revents 0 1 Sample.constructed)).
  { split; [reflexivity |]. split.
    - intro i. destruct i as [| i]; split; reflexivity.
    - intro i. destruct i as [| [| i]]; simpl; auto. }
  split; [exact Hreg |].
  exact (proj1 (close_releases_construction Sample.raw (set_revents 0 1 Sample.constructed)
                  (Some (Sample.hub [10; 11; 12])) (Some (Sample.fusion [20; 21]))
                  0 (5, 6) Hreg)).
Defined.

(** [setDelay] of [ID_P], which the hub owns. *)
Lemma setDelay_routes_to_owner_witness :
  0 <= handleToDriver (ids := Sample.ids) 3 /\
  mSensors (ctx Sample.idle) (Z.to_nat (handleToDriver (ids := Sample.ids) 3))
  = Some (Sample.hub [10; 11; 12]) /\
  exists w',
    setDelay (ids := Sample.ids) 3 20000000 Sample.idle
    = ([CallSetDelay 0 3 20000000], Returns 0 w') /\
    batch (ids := Sample.ids) 3 0 20000000 500 Sample.idle
    = ([CallSetDelay 0 3 20000000], Returns 0 w') /\
    mSensors (ctx w') 1 = Some (Sample.fusion [20; 21]) /\
    kern w' = kern Sample.idle.
Proof.
  assert (Hdrv : 0 <= handleToDriver (ids := Sample.ids) 3) by (apply Z.leb_le; reflexivity).
  split; [exact Hdrv |]. split; [reflexivity |].
  destruct (setDelay_routes_to_owner (ids := Sample.ids) Sample.idle 3 20000000
              (Sample.hub [10; 11; 12]) Hdrv eq_refl)
    as (w' & Hrun & Hbatch & _ & Hother & _ & _ & _ & Hkern).
  exists w'. split; [exact Hrun |]. split; [exact (Hbatch 0 500) |].
  split; [| exact Hkern].
  assert (Hne : 1%nat <> Z.to_nat (handleToDriver (ids := Sample.ids) 3)) by discriminate.
  exact (Hother 1%nat Hne).
Defined.

(** [activate] of [ID_M], which the fusion driver owns. *)
Lemma activate_routes_to_owner_witness :
  0 <= handleToDriver (ids := Sample.ids) 9 /\
  mSensors (ctx Sample.idle) (Z.to_nat (handleToDriver (ids := Sample.ids) 9))
  = Some (Sample.fusion [20; 21]) /\
  exists tail w',
    activate (ids := Sample.ids) 9 1 Sample.idle
    = (CallSetEnable 1 9 1 :: tail, Returns 0 w') /\
    Forall (fun a => is_delegate_call a = false) tail /\
    mSensors (ctx w') 0 = Some (Sample.hub [10; 11; 12]) /\
    mPollFds (ctx w') = mPollFds (ctx Sample.idle).
Proof.
  assert (Hdrv : 0 <= handleToDriver (ids := Sample.ids) 9) by (apply Z.leb_le; reflexivity).
  split; [exact Hdrv |]. split; [reflexivity |].
  destruct (activate_routes_to_owner (ids := Sample.ids) Sample.idle 9 1
              (Sample.fusion [20; 21]) Hdrv eq_refl)
    as (tail & w' & Hrun & Hquiet & _ & _ & Hother & Hfds & _).
  exists tail, w'. split; [exact Hrun |]. split; [exact Hquiet |].
  split; [| exact Hfds].
  assert (Hne : 0%nat <> Z.to_nat (handleToDriver (ids := Sample.ids) 9)) by discriminate.
  exact (Hother 0%nat Hne).
Defined.

(** [poll] fails with [EBADF] after an interruption, on a context whose
    fusion driver was not constructed. *)
Lemma pollEvents_poll_failure_witness :
  9 <> EINTR /\
  poll_answers (kern Sample.no_fusion_poll_fails) = interrupted_then_failed 1 9 [] /\
  exists acts w',
    pollEvents 10 Sample.no_fusion_poll_fails = (acts, Returns (-9) w') /\
    Forall (fun a => is_delegate_call a = false) acts /\
    ctx w' = ctx Sample.no_fusion_poll_fails.
Proof.
  assert (Herr : 9 <> EINTR) by discriminate.
  split; [exact Herr |]. split; [reflexivity |].
  destruct (pollEvents_poll_failure 10 Sample.no_fusion_poll_fails 1 9 [] Herr eq_refl)
    as (acts & w' & Hrun & Hquiet & _ & _ & Hctx & _).
  exists acts, w'. split; [exact Hrun |]. split; [exact Hquiet | exact Hctx].
Defined.

(** The interrupted [poll] of [hub_readable]. *)
Lemma pollEvents_retries_interrupt_witness :
  poll_answers (kern Sample.hub_readable) = PollFail EINTR :: [PollReady [1; 0; 0]] /\
  fst (pollEvents 10 Sample.hub_readable)
  = SysPoll 3 (-1) (Some (-1)) :: ALOGE "poll() failed (%s)"
      :: fst (pollEvents 10 (Sample.both [10; 11; 12] [] [PollReady [1; 0; 0]])) /\
  returned (pollEvents 10 Sample.hub_readable)
  = returned (pollEvents 10 (Sample.both [10; 11; 12] [] [PollReady [1; 0; 0]])).
Proof.
  split; [reflexivity |].
  pose proof (pollEvents_retries_interrupt 10 Sample.hub_readable [PollReady [1; 0; 0]] eq_refl)
    as Hretry.
  split.
  - rewrite Hretry. reflexivity.
  - unfold returned. rewrite Hretry. reflexivity.
Defined.

(** Only the hub is readable: only the hub is drained, and the fusion
    driver keeps its state. *)
Lemma pollEvents_drains_only_ready_witness :
  poll_answers (kern Sample.hub_readable) = interrupted_then_ready 1 [1; 0; 0] [] /\
  read_indices (fst (pollEvents 10 Sample.hub_readable)) = [0%nat] /\
  mSensors (ctx (state_after (pollEvents 10 Sample.hub_readable) Sample.hub_readable)) 1
  = Some (Sample.fusion []).
Proof.
  split; [reflexivity |]. split; [reflexivity |].
  assert (Hrun : pollEvents 10 Sample.hub_readable
                 = (fst (pollEvents 10 Sample.hub_readable),
                    Returns 3 (state_after (pollEvents 10 Sample.hub_readable)
                                 Sample.hub_readable)))
    by (vm_compute; reflexivity).
  destruct (pollEvents_drains_only_ready 10 Sample.hub_readable 1 [1; 0; 0] [] _ _
              eq_refl Hrun) as [_ Hkeep].
  assert (Hno : ~ In 1%nat (read_indices (fst (pollEvents 10 Sample.hub_readable)))).
  { intros [H | []]. discriminate. }
  exact (Hkeep _ _ 1%nat eq_refl Hno).
Defined.

(** Both drivers readable: the hub, then the fusion driver. *)
Lemma pollEvents_drains_each_once_witness :
  exists acts o,
    pollEvents 10 Sample.both_readable = (acts, o) /\
    read_indices acts = [0%nat; 1%nat] /\
    StronglySorted lt (read_indices acts).
Proof.
  exists (fst (pollEvents 10 Sample.both_readable)), (snd (pollEvents 10 Sample.both_readable)).
  assert (Hrun : pollEvents 10 Sample.both_readable
                 = (fst (pollEvents 10 Sample.both_readable),
                    snd (pollEvents 10 Sample.both_readable)))
    by apply surjective_pairing.
  split; [exact Hrun |]. split; [reflexivity |].
  exact (proj1 (pollEvents_drains_each_once 10 Sample.both_readable _ _ Hrun)).
Defined.

(** Both drivers readable and drained with capacity to spare. *)
Lemma pollEvents_clears_marks_witness :
  poll_answers (kern Sample.both_readable) = interrupted_then_ready 0 [1; 1; 0] [] /\
  5 <> 10 /\
  exists acts w',
    pollEvents 10 Sample.both_readable = (acts, Returns 5 w') /\
    marked (ctx w') 0 = false /\ marked (ctx w') 1 = false /\ marked (ctx w') 2 = false.
Proof.
  assert (Hleft : 5 <> 10) by discriminate.
  split; [reflexivity |]. split; [exact Hleft |].
  assert (Hrun : pollEvents 10 Sample.both_readable
                 = (fst (pollEvents 10 Sample.both_readable),
                    Returns 5 (state_after (pollEvents 10 Sample.both_readable)
                                 Sample.both_readable)))
    by (vm_compute; reflexivity).
  pose proof (pollEvents_clears_marks 10 Sample.both_readable 0 [1; 1; 0] [] _ _ _
                eq_refl Hrun Hleft) as Hmarks.
  do 2 eexists. split; [exact Hrun |].
  split; [apply Hmarks; simpl; lia |]. split; apply Hmarks; simpl; lia.
Defined.

(** The wake byte is queued and [poll] marks the pipe readable. *)
Lemma pollEvents_reads_one_wake_byte_witness :
  poll_answers (kern Sample.signalled) = interrupted_then_ready 0 [0; 0; 1] [] /\
  exists acts w',
    pollEvents 10 Sample.signalled = (acts, Returns 0 w') /\
    reads acts = 1%nat /\
    pipe_bytes (kern w') = [] /\
    poll_answers (kern w') = [].
Proof.
  split; [reflexivity |].
  assert (Hrun : pollEvents 10 Sample.signalled
                 = (fst (pollEvents 10 Sample.signalled),
                    Returns 0 (state_after (pollEvents 10 Sample.signalled) Sample.signalled)))
    by (vm_compute; reflexivity).
  do 2 eexists. split; [exact Hrun |].
  exact (pollEvents_reads_one_wake_byte 10 Sample.signalled 0 [0; 0; 1] [] _ _ _ eq_refl Hrun).
Defined.

(** [activate] of [ID_M], then the call of [pollEvents] that it wakes. *)
Lemma wake_byte_round_trip_witness :
  0 <= handleToDriver (ids := Sample.ids) (@ID_M Sample.ids) /\
  mSensors (ctx Sample.about_to_wake)
    (Z.to_nat (handleToDriver (ids := Sample.ids) (@ID_M Sample.ids)))
  = Some (Sample.fusion []) /\
  1 <> 0 /\
  pipe_bytes (kern Sample.about_to_wake) = [] /\
  write_lands Sample.about_to_wake = true /\
  exists acts1 w1 acts2 w2,
    activate (ids := Sample.ids) (@ID_M Sample.ids) 1 Sample.about_to_wake
    = (acts1, Returns 0 w1) /\
    pipe_bytes (kern w1) = [WAKE_MESSAGE] /\
    pollEvents 10 w1 = (acts2, Returns 0 w2) /\
    reads acts2 = 1%nat /\
    pipe_bytes (kern w2) = [] /\
    ~ In (ALOGE "unknown message on wake queue (0x%02x)") acts2.
Proof.
  assert (Hdrv : 0 <= handleToDriver (ids := Sample.ids) (@ID_M Sample.ids))
    by (apply Z.leb_le; reflexivity).
  assert (Hon : 1 <> 0) by discriminate.
  split; [exact Hdrv |]. split; [reflexivity |]. split; [exact Hon |].
  split; [reflexivity |]. split; [reflexivity |].
  pose (r1 := activate (ids := Sample.ids) (@ID_M Sample.ids) 1 Sample.about_to_wake).
  pose (w1 := state_after r1 Sample.about_to_wake).
  assert (Hact : activate (ids := Sample.ids) (@ID_M Sample.ids) 1 Sample.about_to_wake
                 = (fst r1, Returns 0 w1)) by (vm_compute; reflexivity).
  assert (Hpoll : pollEvents 10 w1
                  = (fst (pollEvents 10 w1), Returns 0 (state_after (pollEvents 10 w1) w1)))
    by (vm_compute; reflexivity).
  destruct (wake_byte_round_trip (ids := Sample.ids) Sample.about_to_wake w1 _ 1 10 0
              (Sample.fusion []) 0 [0; 0; 1] [] _ _
              Hdrv eq_refl Hon eq_refl eq_refl eq_refl eq_refl Hact eq_refl eq_refl Hpoll)
    as (_ & Hq & Hr & Hb & Hlog).
  exists (fst r1), w1. do 2 eexists. split; [exact Hact |]. split; [exact Hq |].
  split; [exact Hpoll |]. split; [exact Hr |]. split; [exact Hb | exact Hlog].
Defined.

(** Woken by the pipe alone, with nothing buffered. *)
Lemma pollEvents_nothing_ready_witness :
  poll_answers (kern Sample.woken) = interrupted_then_ready 1 [0; 0; 1] [] /\
  mSensors (ctx Sample.woken) (Z.to_nat accelgyromag) = Some (Sample.hub []) /\
  mSensors (ctx Sample.woken) (Z.to_nat akm) = Some (Sample.fusion []) /\
  source_ready [0; 0; 1] (Z.to_nat accelgyromag) (Sample.hub []) = false /\
  source_ready [0; 0; 1] (Z.to_nat akm) (Sample.fusion []) = false /\
  exists acts w',
    pollEvents 10 Sample.woken = (acts, Returns 0 w') /\
    read_indices acts = [] /\
    events_buf w' = events_buf Sample.woken.
Proof.
  repeat (split; [reflexivity |]).
  destruct (pollEvents_nothing_ready 10 Sample.woken 1 [0; 0; 1] []
              (Sample.hub []) (Sample.fusion []) eq_refl eq_refl eq_refl eq_refl eq_refl)
    as (acts & w' & Hrun & Hno & _ & Hbuf).
  exists acts, w'. split; [exact Hrun |]. split; [exact Hno | exact Hbuf].
Defined.

(** Both drivers constructed: no call through a null pointer. *)
Lemma constructed_context_no_null_call_witness :
  (forall j, (j < Z.to_nat numSensorDrivers)%nat -> mSensors (ctx Sample.idle) j <> None) /\
  (exists acts r w', activate (ids := Sample.ids) 9 1 Sample.idle = (acts, Returns r w')) /\
  (exists acts r w', flush 3 Sample.idle = (acts, Returns r w')) /\
  snd (pollEvents 10 Sample.both_readable) <> NullDeref.
Proof.
  assert (Hlive : forall w0 : world (list Z) Z,
            ctx w0 = Sample.constructed \/ ctx w0 = ctx Sample.both_readable ->
            forall j, (j < Z.to_nat numSensorDrivers)%nat -> mSensors (ctx w0) j <> None).
  { intros w0 Hw0 j Hj. change (Z.to_nat numSensorDrivers) with 2%nat in Hj.
    destruct Hw0 as [-> | ->]; destruct j as [| [| j]]; simpl; try discriminate; lia. }
  split; [apply Hlive; left; reflexivity |].
  destruct (constructed_context_no_null_call (ids := Sample.ids) Sample.idle
              (Hlive Sample.idle (or_introl eq_refl)))
    as (Hact & _ & _ & Hflush & _).
  destruct (constructed_context_no_null_call (ids := Sample.ids) Sample.both_readable
              (Hlive Sample.both_readable (or_intror eq_refl)))
    as (_ & _ & _ & _ & Hpoll).
  split; [exact (Hact 9 1) |]. split; [exact (Hflush 3) | exact (Hpoll 10)].
Defined.

(** The registration after a call of [pollEvents] that drained both
    drivers. *)
Lemma member_functions_keep_registration_witness :
  (exists count,
     pollEvents count Sample.both_readable
     = (fst (pollEvents 10 Sample.both_readable),
        Returns 5 (state_after (pollEvents 10 Sample.both_readable) Sample.both_readable))) /\
  same_registration (ctx Sample.both_readable)
    (ctx (state_after (pollEvents 10 Sample.both_readable) Sample.both_readable)).
Proof.
  assert (Hrun : pollEvents 10 Sample.both_readable
                 = (fst (pollEvents 10 Sample.both_readable),
                    Returns 5 (state_after (pollEvents 10 Sample.both_readable)
                                 Sample.both_readable)))
    by (vm_compute; reflexivity).
  split; [exists 10; exact Hrun |].
  apply (member_functions_keep_registration (ids := Sample.ids) Sample.both_readable _
           (fst (pollEvents 10 Sample.both_readable)) 5).
  right. right. right. right. exists 10. exact Hrun.
Defined.
